(** * TodoListAPI: a shallow embedding of [main.py] and its properties

    The Flask application of [main.py] is embedded handler by handler.
    Python values that travel through a JSON body are values of [json];
    the two tables are lists of rows in rowid order; every route handler
    is a computation in the [Handler] monad, which threads the committed
    database and short-circuits at a Python [return].

    What the libraries do (werkzeug's password hashing, the JWT codec of
    flask_jwt_extended) is the interface [Libraries], a parameter of the
    routes that use it; what the object-relational mapper does (column
    defaults, primary keys, the unit of work behind [db.session]) is
    written out once, next to the models, and used by the handlers. *)

From Stdlib Require Import ZArith String Ascii List Decimal DecimalString DecimalPos DecimalZ.
From Stdlib Require Import Permutation Sorted.
From stdpp Require Import gmap strings list.

Local Open Scope string_scope.
Local Open Scope Z_scope.
Local Set Warnings "-register-all".

(** ** Python values and helpers *)

(** The values a JSON request body carries after [request.get_json()].
    JSON numbers are integers here (no floats). *)
Inductive json :=
| JNull
| JBool (b : bool)
| JInt (n : Z)
| JStr (s : string)
| JArr (l : list json)
| JObj (l : list (string * json)).

(** Python truthiness, as tested by [not v]. *)
Definition truthy (v : json) : bool :=
  match v with
  | JNull => false
  | JBool b => b
  | JInt n => negb (n =? 0)
  | JStr s => negb (String.eqb s "")
  | JArr l => match l with [] => false | _ => true end
  | JObj l => match l with [] => false | _ => true end
  end.

(** [v is not None] *)
Definition is_not_none (v : json) : bool :=
  match v with JNull => false | _ => true end.

(** [data.get(key)]: a missing key and a JSON null both read as [None]. *)
Definition dict_get (data : gmap string json) (key : string) : json :=
  default JNull (data !! key).

(** [data.get(key, dflt)]: the default stands in for a missing key only. *)
Definition dict_get_default (data : gmap string json) (key : string) (dflt : json) : json :=
  default dflt (data !! key).

(** Texts are the UTF-8 form of Python's [str].  [str.isspace] for one
    character, given as the bytes of its UTF-8 form: tab, line feed,
    vertical tab, form feed, carriage return, the separators 0x1c to
    0x1f and space; U+0085 and U+00A0 (two bytes); U+1680, U+2000 to
    U+200A, U+2028, U+2029, U+202F, U+205F and U+3000 (three bytes). *)
Definition isspace (ch : string) : bool :=
  match ch with
  | String a EmptyString =>
      let a := nat_of_ascii a in
      ((9 <=? a)%nat && (a <=? 13)%nat) || ((28 <=? a)%nat && (a <=? 32)%nat)
  | String a (String b EmptyString) =>
      let a := nat_of_ascii a in
      let b := nat_of_ascii b in
      (a =? 194)%nat && ((b =? 133)%nat || (b =? 160)%nat)
  | String a (String b (String c EmptyString)) =>
      let a := nat_of_ascii a in
      let b := nat_of_ascii b in
      let c := nat_of_ascii c in
      ((a =? 225)%nat && (b =? 154)%nat && (c =? 128)%nat)
      || ((a =? 226)%nat && (b =? 128)%nat
          && (((128 <=? c)%nat && (c <=? 138)%nat)
              || (c =? 168)%nat || (c =? 169)%nat || (c =? 175)%nat))
      || ((a =? 226)%nat && (b =? 129)%nat && (c =? 159)%nat)
      || ((a =? 227)%nat && (b =? 128)%nat && (c =? 128)%nat)
  | _ => false
  end.

(** [s.lstrip()]: leading white-space characters go, of one, two or
    three bytes each. *)
Fixpoint lstrip (s : string) : string :=
  match s with
  | EmptyString => EmptyString
  | String a r1 =>
      if isspace (String a EmptyString) then lstrip r1
      else
        match r1 with
        | EmptyString => s
        | String b r2 =>
            if isspace (String a (String b EmptyString)) then lstrip r2
            else
              match r2 with
              | EmptyString => s
              | String c r3 =>
                  if isspace (String a (String b (String c EmptyString)))
                  then lstrip r3 else s
              end
        end
  end.

(** [s.rstrip()]: once what follows a byte is stripped, the byte goes too
    if with the bytes left it is one white-space character. *)
Fixpoint rstrip (s : string) : string :=
  match s with
  | EmptyString => EmptyString
  | String c r =>
      let r' := rstrip r in
      if isspace (String c r') then EmptyString else String c r'
  end.

(** [s.strip()] *)
Definition strip (s : string) : string := rstrip (lstrip s).

(** [str.lower], and SQL [lower], on the ASCII range; bytes above 127
    are left alone, as SQLite leaves them.  Python also lowers letters
    outside ASCII, which never yields one of the ASCII words that
    [get_tasks] compares a lowered parameter with. *)
Definition lower_ascii (c : ascii) : ascii :=
  let n := nat_of_ascii c in
  if (65 <=? n)%nat && (n <=? 90)%nat then ascii_of_nat (n + 32) else c.

Fixpoint lower (s : string) : string :=
  match s with
  | EmptyString => EmptyString
  | String c r => String (lower_ascii c) (lower r)
  end.

(** [str(n)] for an integer. *)
Definition py_str (n : Z) : string := NilZero.string_of_int (Z.to_int n).

(** [int(s)] on decimal literals with an optional sign, the strings that
    [str] produces; [None] is Python's [ValueError]. *)
Definition py_int (s : string) : option Z :=
  match s with
  | String "+" r =>
      match r with
      | String "-" _ => None
      | _ => Z.of_int <$> NilZero.int_of_string r
      end
  | _ => Z.of_int <$> NilZero.int_of_string s
  end.

(** ** HTTP responses *)

Inductive Body :=
| EmptyBody
| Json (j : json).

Record Response := mkResponse { body : Body; status : Z }.

(** [jsonify(payload), code] *)
Definition jsonify (payload : json) (code : Z) : Response :=
  mkResponse (Json payload) code.

(** ** Database models *)

Module User.
Record t := mk {
  id : Z;
  email : string;
  password : string;
  name : string
}.
End User.

Module Task.
Record t := mk {
  id : Z;
  owner_id : Z;
  title : string;
  description : option string;
  completed : bool;
  created_at : Z;
  updated_at : Z
}.
End Task.

(** The committed content of [todo.db]: both tables in rowid order. *)
Record DB := mkDB { users : list User.t; tasks : list Task.t }.

(** What the module computes once, when it is imported: the signing
    secret and the three [datetime.now(timezone.utc)] calls inside the
    [Column] declarations of [Task], which hand SQLAlchemy a value and
    not a callable. *)
Record App := mkApp {
  JWT_SECRET_KEY : string;
  created_at_default : Z;
  updated_at_default : Z;
  updated_at_onupdate : Z
}.

(** [app.config["JWT_ACCESS_TOKEN_EXPIRES"] = timedelta(hours=1)], in seconds. *)
Definition JWT_ACCESS_TOKEN_EXPIRES : Z := 3600.

(** What one request draws from its environment: the clock read when a
    token is issued or checked, and the random salt of the password hash. *)
Record Env := mkEnv { now : Z; salt : string }.

(** An integer primary key without AUTOINCREMENT: one more than the
    largest key in the table, 1 for an empty table. *)
Definition next_id (ids : list Z) : Z := 1 + foldr Z.max 0 ids.

(** The integers the SQLite driver binds as a statement parameter: the
    signed 64-bit ones.  For any other Python integer it raises
    [OverflowError]. *)
Definition sqlite_int (n : Z) : bool := (- 2 ^ 63 <=? n) && (n <=? 2 ^ 63 - 1).

(** The value the SQLite driver stores in a text column for a Python
    value: [None] is NULL, a string itself, a 64-bit number its decimal
    text (a bool is the integer 1 or 0); a larger number, a list or a
    dict cannot be bound and the driver raises, which is the outer
    [None]. *)
Definition bind_text (v : json) : option (option string) :=
  match v with
  | JNull => Some None
  | JStr s => Some (Some s)
  | JInt n => if sqlite_int n then Some (Some (py_str n)) else None
  | JBool b => Some (Some (if b then "1" else "0"))
  | JArr _ | JObj _ => None
  end.

(** ** Helpers *)

(** Instants are integers; [isoformat] prints an instant one-to-one and
    the payload carries the instant itself.  Both columns are NOT NULL,
    so the [else None] branches are never taken. *)
Definition isoformat (t : Z) : json := JInt t.

Definition json_of_text (o : option string) : json :=
  match o with Some s => JStr s | None => JNull end.

Definition task_to_dict (task : Task.t) : json :=
  JObj [ ("id", JInt (Task.id task));
         ("title", JStr (Task.title task));
         ("description", json_of_text (Task.description task));
         ("completed", JBool (Task.completed task));
         ("owner_id", JInt (Task.owner_id task));
         ("created_at", isoformat (Task.created_at task));
         ("updated_at", isoformat (Task.updated_at task)) ].

Definition user_to_dict (user : User.t) : json :=
  JObj [ ("id", JInt (User.id user));
         ("email", JStr (User.email user));
         ("name", JStr (User.name user)) ].

(** [query.count()] and [query.offset((page - 1) * limit).limit(limit).all()]
    on the rows a query selects, in their order; SQLite reads a negative
    offset as none and a negative limit as no limit.  [None]: the offset
    or the limit is not a 64-bit integer and the driver raises when the
    second statement is run. *)
Definition paginate_query (query : list Task.t) (page limit : Z)
    : option (list Task.t * Z) :=
  let total := Z.of_nat (length query) in
  if sqlite_int ((page - 1) * limit) && sqlite_int limit then
    let rest := drop (Z.to_nat ((page - 1) * limit)) query in
    let items := if limit <? 0 then rest else take (Z.to_nat limit) rest in
    Some (items, total)
  else None.

Arguments paginate_query : simpl never.

(** ** Requests as computations

    A handler reads and writes the committed database and stops at its
    first [return].  Objects loaded from or added to [db.session] live in
    the handler's local variables: assigning to an attribute changes the
    object in memory only, rows change at [db.session.commit()], and the
    session (with whatever it had not committed) is removed when the
    request ends. *)
Definition Handler (A : Type) : Type := DB -> (Response + A) * DB.

Definition ret {A} (x : A) : Handler A := fun db => (inr x, db).

Definition bind {A B} (m : Handler A) (k : A -> Handler B) : Handler B :=
  fun db =>
    match m db with
    | (inl r, db') => (inl r, db')
    | (inr x, db') => k x db'
    end.

(** Python's [return response] in the middle of a handler. *)
Definition respond {A} (r : Response) : Handler A := fun db => (inl r, db).

Definition read_db : Handler DB := fun db => (inr db, db).
Definition write_db (db' : DB) : Handler unit := fun _ => (inr tt, db').

Notation "x <- m ;; k" := (bind m (fun x => k))
  (at level 100, m at next level, right associativity).
Notation "m ;;; k" := (bind m (fun _ => k))
  (at level 100, right associativity).

(** The response a request gets and the database it leaves behind. *)
Definition run (h : Handler Response) (db : DB) : Response * DB :=
  match h db with
  | (inl r, db') => (r, db')
  | (inr r, db') => (r, db')
  end.

(** [@app.errorhandler(500)]: what an exception inside a handler becomes. *)
Definition server_error : Response := jsonify (JObj [("error", JStr "Server error")]) 500.

(** *** Queries *)

(** [User.query.filter_by(email=email).first()] *)
Definition user_by_email (email : string) : Handler (option User.t) :=
  db <- read_db ;;
  ret (find (fun u => String.eqb (User.email u) email) (users db)).

(** [Task.query.get(task_id)] and [Task.query.filter_by(id=task_id).first()].
    The ids of a table are 64-bit integers; when [task_id] is not one,
    the driver cannot bind it and raises, so the query never comes back
    empty for such an id: the route answers 500. *)
Definition task_by_id (task_id : Z) : Handler (option Task.t) :=
  db <- read_db ;;
  match find (fun t => Task.id t =? task_id) (tasks db) with
  | Some task => ret (Some task)
  | None => if sqlite_int task_id then ret None else respond server_error
  end.

(** *** The unit of work *)

(** [db.session.add(User(...)); db.session.commit()]: the INSERT assigns
    the primary key; the committed row is what [new_user] then shows. *)
Definition commit_new_user (email name password : string) : Handler User.t :=
  db <- read_db ;;
  let row := User.mk (next_id (User.id <$> users db)) email password name in
  write_db (mkDB (users db ++ [row]) (tasks db)) ;;;
  ret row.

(** [db.session.add(Task(...)); db.session.commit()]: the INSERT fills
    [completed], [created_at] and [updated_at] from the column defaults. *)
Definition commit_new_task (app : App) (title : string) (description : option string)
    (owner_id : Z) : Handler Task.t :=
  db <- read_db ;;
  let row := Task.mk (next_id (Task.id <$> tasks db)) owner_id title description false
                     (created_at_default app) (updated_at_default app) in
  write_db (mkDB (users db) (tasks db ++ [row])) ;;;
  ret row.

(** A loaded task and the attribute assignments made on it in memory. *)
Record TaskObject := mkTaskObject {
  loaded : Task.t;
  new_title : option string;
  new_description : option json;
  new_completed : option bool
}.

Definition load (row : Task.t) : TaskObject := mkTaskObject row None None None.

(** [task.title = v], [task.description = v], [task.completed = v] *)
Definition set_title (v : string) (o : TaskObject) : TaskObject :=
  mkTaskObject (loaded o) (Some v) (new_description o) (new_completed o).
Definition set_description (v : json) (o : TaskObject) : TaskObject :=
  mkTaskObject (loaded o) (new_title o) (Some v) (new_completed o).
Definition set_completed (v : bool) (o : TaskObject) : TaskObject :=
  mkTaskObject (loaded o) (new_title o) (new_description o) (Some v).

(** The net changes of an object: an attribute assigned a value equal
    ([==]) to the loaded one is no change. *)
Definition title_changed (o : TaskObject) : bool :=
  match new_title o with
  | Some s => negb (String.eqb s (Task.title (loaded o)))
  | None => false
  end.

Definition description_changed (o : TaskObject) : bool :=
  match new_description o with
  | Some (JStr s) =>
      match Task.description (loaded o) with
      | Some s0 => negb (String.eqb s s0)
      | None => true
      end
  | Some JNull => match Task.description (loaded o) with Some _ => true | None => false end
  | Some _ => true
  | None => false
  end.

Definition completed_changed (o : TaskObject) : bool :=
  match new_completed o with
  | Some b => negb (Bool.eqb b (Task.completed (loaded o)))
  | None => false
  end.

(** The row an UPDATE of the changed columns leaves; [updated_at] takes
    the [onupdate] value of its column.  [None]: a value cannot be bound. *)
Definition updated_row (app : App) (o : TaskObject) : option Task.t :=
  let row := loaded o in
  let title := default (Task.title row) (new_title o) in
  let completed := default (Task.completed row) (new_completed o) in
  description ←
    match new_description o with
    | Some v => if description_changed o then bind_text v else Some (Task.description row)
    | None => Some (Task.description row)
    end;
  Some (Task.mk (Task.id row) (Task.owner_id row) title description completed
                (Task.created_at row) (updated_at_onupdate app)).

Definition replace_row (row : Task.t) (rows : list Task.t) : list Task.t :=
  (fun t => if Task.id t =? Task.id row then row else t) <$> rows.

(** [db.session.commit()] with one modified task in the session: no
    statement at all when nothing changed, one UPDATE otherwise.  The
    result is the row that [task] shows after the commit. *)
Definition commit_task (app : App) (o : TaskObject) : Handler Task.t :=
  if title_changed o || description_changed o || completed_changed o then
    match updated_row app o with
    | None => respond server_error
    | Some row =>
        db <- read_db ;;
        write_db (mkDB (users db) (replace_row row (tasks db))) ;;;
        ret row
    end
  else ret (loaded o).

(** [db.session.delete(task); db.session.commit()] *)
Definition commit_delete (task : Task.t) : Handler unit :=
  db <- read_db ;;
  write_db (mkDB (users db)
                 (filter (fun t => negb (Task.id t =? Task.id task)) (tasks db))).

(** ** The query engine of [get_tasks] *)

(** A continuation byte of a UTF-8 character: 0x80 to 0xBF. *)
Definition continuation (c : ascii) : bool :=
  let n := nat_of_ascii c in (128 <=? n)%nat && (n <=? 191)%nat.

(** What is left of a text after the continuation bytes at its front. *)
Fixpoint skip_continuation (text : string) : string :=
  match text with
  | EmptyString => EmptyString
  | String c text' => if continuation c then skip_continuation text' else text
  end.

(** SQL [text LIKE pattern]: [%] matches any run of characters, [_] any
    one character (a byte and the continuation bytes after it), every
    other byte itself. *)
Fixpoint like (pattern text : string) {struct pattern} : bool :=
  match pattern with
  | EmptyString => match text with EmptyString => true | _ => false end
  | String c pattern' =>
      if Ascii.eqb c "%" then
        (fix any (text : string) : bool :=
           like pattern' text
           || match text with EmptyString => false | String _ text' => any text' end) text
      else
        match text with
        | EmptyString => false
        | String d text' =>
            if Ascii.eqb c "_" then like pattern' (skip_continuation text')
            else Ascii.eqb c d && like pattern' text'
        end
  end.

(** [column.ilike(pattern)], which SQLite evaluates as
    [lower(column) LIKE lower(pattern)]; NULL matches nothing. *)
Definition ilike (column : option string) (pattern : string) : bool :=
  match column with
  | Some text => like (lower pattern) (lower text)
  | None => false
  end.

(** [ORDER BY]: a stable insertion sort, so rows with equal keys stay in
    table order. *)
Fixpoint insert_by (le : Task.t -> Task.t -> bool) (x : Task.t) (l : list Task.t) : list Task.t :=
  match l with
  | [] => [x]
  | y :: l' => if le x y then x :: l else y :: insert_by le x l'
  end.

Fixpoint order_by (le : Task.t -> Task.t -> bool) (l : list Task.t) : list Task.t :=
  match l with
  | [] => []
  | x :: l' => insert_by le x (order_by le l')
  end.

(** [getattr(Task, sort)] compared in ascending order; [sort] is one of
    the three permitted names when this is called. *)
Definition sort_col (sort : string) (a b : Task.t) : bool :=
  if String.eqb sort "title" then String.leb (Task.title a) (Task.title b)
  else if String.eqb sort "updated_at" then Task.updated_at a <=? Task.updated_at b
  else Task.created_at a <=? Task.created_at b.

Definition asc (col : Task.t -> Task.t -> bool) : Task.t -> Task.t -> bool := col.
Definition desc (col : Task.t -> Task.t -> bool) : Task.t -> Task.t -> bool :=
  fun a b => col b a.

(** The query string of [GET /todos].  [arg_page] and [arg_limit] are
    what [request.args.get(key, type=int)] converts: [None] when the
    parameter is absent or [int] rejects its text, in both of which cases
    [get] returns the default. *)
Record Args := mkArgs {
  arg_page : option Z;
  arg_limit : option Z;
  arg_completed : option string;
  arg_search : option string;
  arg_sort : option string;
  arg_order : option string
}.

(** [if page < 1: page = 1] *)
Definition normal_page (args : Args) : Z :=
  let page := default 1 (arg_page args) in
  if page <? 1 then 1 else page.

(** [if limit < 1 or limit > 100: limit = 10] *)
Definition normal_limit (args : Args) : Z :=
  let limit := default 10 (arg_limit args) in
  if (limit <? 1) || (limit >? 100) then 10 else limit.

(** The [completed] filter: [None] is the 400 of an unrecognised value,
    [Some None] no filter, [Some (Some b)] is [filter_by(completed=b)]. *)
Definition completed_filter (args : Args) : option (option bool) :=
  match arg_completed args with
  | None => Some None
  | Some completed_param =>
      let v := lower completed_param in
      if String.eqb v "true" || String.eqb v "1" then Some (Some true)
      else if String.eqb v "false" || String.eqb v "0" then Some (Some false)
      else None
  end.

(** [if search:] then [title ILIKE %search% OR description ILIKE %search%] *)
Definition search_filter (args : Args) (t : Task.t) : bool :=
  match arg_search args with
  | None => true
  | Some search =>
      if String.eqb search "" then true
      else
        let like := "%" ++ search ++ "%" in
        ilike (Some (Task.title t)) like || ilike (Task.description t) like
  end.

(** The ordering chosen by [sort] and [order]. *)
Definition ordering (args : Args) : Task.t -> Task.t -> bool :=
  let sort := default "created_at" (arg_sort args) in
  let order := lower (default "desc" (arg_order args)) in
  let sort :=
    if String.eqb sort "created_at" || String.eqb sort "title" || String.eqb sort "updated_at"
    then sort else "created_at" in
  if String.eqb order "desc" then desc (sort_col sort) else asc (sort_col sort).

(** The rows the query [q] selects once filters and ordering are applied. *)
Definition selected (current_user_id : Z) (completed : option bool) (args : Args)
    (rows : list Task.t) : list Task.t :=
  let q := filter (fun t => Task.owner_id t =? current_user_id) rows in
  let q := match completed with
           | Some b => filter (fun t => Bool.eqb (Task.completed t) b) q
           | None => q
           end in
  let q := filter (search_filter args) q in
  order_by (ordering args) q.

(** ** Task routes; [current_user_id] is [int(get_jwt_identity())] *)

(** [POST /todos] *)
Definition add_new_task (app : App) (current_user_id : Z) (data : gmap string json)
    : Handler Response :=
  let title := dict_get data "title" in
  let description := dict_get_default data "description" (JStr "") in
  if negb (truthy title) then
    respond (jsonify (JObj [("error", JStr "Missing required field: title")]) 400)
  else
    match bind_text title, bind_text description with
    | Some (Some title), Some description =>
        task <- commit_new_task app title description current_user_id ;;
        ret (jsonify (task_to_dict task) 201)
    | _, _ => respond server_error
    end.

(** [PUT /todos/<int:task_id>] *)
Definition update_task (app : App) (current_user_id task_id : Z) (data : gmap string json)
    : Handler Response :=
  task <- task_by_id task_id ;;
  match task with
  | None => respond (jsonify (JObj [("error", JStr "Task not found")]) 404)
  | Some task =>
      if negb (Task.owner_id task =? current_user_id) then
        respond (jsonify (JObj [("message", JStr "Forbidden")]) 403)
      else
        let task := load task in
        let title := dict_get data "title" in
        let description := dict_get data "description" in
        let completed := dict_get data "completed" in
        task <- (if is_not_none title then
                   match title with
                   | JStr title =>
                       if String.eqb (strip title) "" then
                         respond (jsonify (JObj [("error", JStr "Invalid title")]) 400)
                       else
                         ret (set_title (strip title) task)
                   | _ => respond (jsonify (JObj [("error", JStr "Invalid title")]) 400)
                   end
                 else ret task) ;;
        task <- (if is_not_none description then
                   ret (set_description description task)
                 else ret task) ;;
        task <- (if is_not_none completed then
                   match completed with
                   | JBool completed =>
                       ret (set_completed completed task)
                   | _ => respond (jsonify (JObj [("error", JStr "completed must be boolean")]) 400)
                   end
                 else ret task) ;;
        task <- commit_task app task ;;
        ret (jsonify (task_to_dict task) 200)
  end.

(** [DELETE /todos/<int:task_id>] *)
Definition delete_task (current_user_id task_id : Z) : Handler Response :=
  task <- task_by_id task_id ;;
  match task with
  | None => respond (jsonify (JObj [("error", JStr "Task not found")]) 404)
  | Some task =>
      if negb (Task.owner_id task =? current_user_id) then
        respond (jsonify (JObj [("message", JStr "Forbidden")]) 403)
      else
        commit_delete task ;;;
        ret (mkResponse EmptyBody 204)
  end.

(** [GET /todos] *)
Definition get_tasks (current_user_id : Z) (args : Args) : Handler Response :=
  let page := normal_page args in
  let limit := normal_limit args in
  match completed_filter args with
  | None =>
      respond (jsonify (JObj [("error",
                 JStr "Invalid 'completed' query parameter, use true/false")]) 400)
  | Some completed =>
      db <- read_db ;;
      let q := selected current_user_id completed args (tasks db) in
      match paginate_query q page limit with
      | None => respond server_error
      | Some (items, total) =>
          ret (jsonify (JObj [("data", JArr (task_to_dict <$> items));
                              ("page", JInt page);
                              ("limit", JInt limit);
                              ("total", JInt total)]) 200)
      end
  end.

(** ** Authentication *)

(** The identity a token carries: [register] passes [str(new_user.id)],
    [login] passes [user.id]. *)
Inductive identity :=
| IdInt (n : Z)
| IdStr (s : string).

(** The claims of an access token: subject, issued-at and expiry. *)
Record Claims := mkClaims { sub : identity; iat : Z; exp : Z }.

(** [int(get_jwt_identity())]; [None] is the [ValueError] of [int]. *)
Definition int_identity (i : identity) : option Z :=
  match i with
  | IdInt n => Some n
  | IdStr s => py_int s
  end.

(** What [main.py] imports and does not define: werkzeug's salted
    password hash, the signed token codec behind flask_jwt_extended, and
    the response of that library's own handlers for a token it rejects
    (only [unauthorized_loader] is overridden by [main.py]). *)
Class Libraries := {
  (* password, salt *)
  generate_password_hash : string -> string -> string;
  (* stored hash, password *)
  check_password_hash : string -> string -> bool;
  (* signing key, claims *)
  jwt_encode : string -> Claims -> string;
  (* signing key, token; None for a bad signature or payload, which
     includes a subject that is not a string *)
  jwt_decode : string -> string -> option Claims;
  rejected_token_response : Env -> string -> Response
}.

Section Auth.
Context {lib : Libraries}.

(** [create_access_token(identity=...)]: expiry is issue time plus
    [JWT_ACCESS_TOKEN_EXPIRES]. *)
Definition create_access_token (app : App) (env : Env) (identity : identity) : string :=
  jwt_encode (JWT_SECRET_KEY app)
    (mkClaims identity (now env) (now env + JWT_ACCESS_TOKEN_EXPIRES)).

(** Modelled from the spec: Token Service.verify, which flask_jwt_extended
    implements outside [main.py].  It fails if the signature does not
    match or the payload is malformed (the codec returns [None]) or if
    the current time is past the expiry; otherwise it yields the subject. *)
Definition verify (app : App) (env : Env) (token : string) : option identity :=
  match jwt_decode (JWT_SECRET_KEY app) token with
  | None => None
  | Some claims => if exp claims <? now env then None else Some (sub claims)
  end.

(** [@jwt.unauthorized_loader] *)
Definition custom_unauthorized_response (err_str : string) : Response :=
  jsonify (JObj [("error", JStr "Missing or invalid token")]) 401.

(** [@jwt_required()] followed by [current_user_id = int(get_jwt_identity())].
    [authorization] is the bearer credential of the request, if any. *)
Definition jwt_required (app : App) (env : Env) (authorization : option string)
    (view : Z -> Handler Response) : Handler Response :=
  match authorization with
  | None => respond (custom_unauthorized_response "Missing Authorization Header")
  | Some token =>
      match verify app env token with
      | None => respond (rejected_token_response env token)
      | Some identity =>
          match int_identity identity with
          | Some current_user_id => view current_user_id
          | None => respond server_error
          end
      end
  end.

(** [POST /register] *)
Definition register (app : App) (env : Env) (data : gmap string json) : Handler Response :=
  let name := dict_get data "name" in
  let email := dict_get data "email" in
  let password := dict_get data "password" in
  if negb (truthy name) || negb (truthy email) || negb (truthy password) then
    respond (jsonify (JObj [("error",
               JStr "Missing required fields: name, email, password")]) 400)
  else
    match bind_text email with
    | Some (Some email) =>
        existing <- user_by_email email ;;
        match existing with
        | Some _ => respond (jsonify (JObj [("error", JStr "Email already registered")]) 409)
        | None =>
            match password, bind_text name with
            | JStr password, Some (Some name) =>
                let hashed_password := generate_password_hash password (salt env) in
                new_user <- commit_new_user email name hashed_password ;;
                let access_token :=
                  create_access_token app env (IdStr (py_str (User.id new_user))) in
                ret (jsonify (JObj [("token", JStr access_token);
                                    ("user", user_to_dict new_user)]) 201)
            | _, _ => respond server_error
            end
        end
    | _ => respond server_error
    end.

(** [POST /login] *)
Definition login (app : App) (env : Env) (data : gmap string json) : Handler Response :=
  let email := dict_get data "email" in
  let password := dict_get data "password" in
  if negb (truthy email) || negb (truthy password) then
    respond (jsonify (JObj [("error", JStr "Missing required fields: email, password")]) 400)
  else
    match bind_text email with
    | Some (Some email) =>
        user <- user_by_email email ;;
        match user with
        | None => respond (jsonify (JObj [("error", JStr "Invalid credentials")]) 401)
        | Some user =>
            match password with
            | JStr password =>
                if negb (check_password_hash (User.password user) password) then
                  respond (jsonify (JObj [("error", JStr "Invalid credentials")]) 401)
                else
                  let token := create_access_token app env (IdInt (User.id user)) in
                  ret (jsonify (JObj [("token", JStr token);
                                      ("user", user_to_dict user)]) 200)
            | _ => respond server_error
            end
        end
    | _ => respond server_error
    end.

(** The protected routes, as the HTTP layer calls them. *)
Definition post_todos (app : App) (env : Env) (authorization : option string)
    (data : gmap string json) : Handler Response :=
  jwt_required app env authorization (fun uid => add_new_task app uid data).

Definition put_todo (app : App) (env : Env) (authorization : option string)
    (task_id : Z) (data : gmap string json) : Handler Response :=
  jwt_required app env authorization (fun uid => update_task app uid task_id data).

Definition delete_todo (app : App) (env : Env) (authorization : option string)
    (task_id : Z) : Handler Response :=
  jwt_required app env authorization (fun uid => delete_task uid task_id).

Definition get_todos (app : App) (env : Env) (authorization : option string)
    (args : Args) : Handler Response :=
  jwt_required app env authorization (fun uid => get_tasks uid args).
End Auth.

(** ** The two refusals of [update_task] and [delete_task] *)

Definition forbidden : Response := jsonify (JObj [("message", JStr "Forbidden")]) 403.
Definition task_not_found : Response := jsonify (JObj [("error", JStr "Task not found")]) 404.

(** ** A reference instance of the libraries

    A small, executable stand-in for the imported libraries: passwords
    are kept as they are, and a token is the signing key followed by the
    three claims in text form.  The answers to rejected tokens are those
    of an application whose key is the one of [app]. *)
Module Reference.
Fixpoint strip_prefix (p s : string) : option string :=
  match p with
  | EmptyString => Some s
  | String c p' =>
      match s with
      | EmptyString => None
      | String d s' => if Ascii.eqb c d then strip_prefix p' s' else None
      end
  end.

Fixpoint split_dot (s : string) : option (string * string) :=
  match s with
  | EmptyString => None
  | String c r =>
      if Ascii.eqb c "." then Some (EmptyString, r)
      else
        match split_dot r with
        | Some (a, b) => Some (String c a, b)
        | None => None
        end
  end.

Definition encode_sub (i : identity) : string :=
  match i with
  | IdInt n => String "i" (py_str n)
  | IdStr s => String "s" s
  end.

(** A subject that is not a string is refused when a token is decoded,
    as the codec behind flask_jwt_extended refuses it. *)
Definition decode_sub (s : string) : option identity :=
  match s with
  | String "s" r => Some (IdStr r)
  | _ => None
  end.

Definition encode (key : string) (c : Claims) : string :=
  key ++ py_str (iat c) ++ "." ++ py_str (exp c) ++ "." ++ encode_sub (sub c).

Definition decode (key : string) (token : string) : option Claims :=
  r ← strip_prefix key token;
  '(a, r) ← split_dot r;
  '(b, r) ← split_dot r;
  iat ← py_int a;
  exp ← py_int b;
  sub ← decode_sub r;
  Some (mkClaims sub iat exp).

(** The library's answers to a token it rejects: 401 for one that has
    expired, 422 with the reason for any other. *)
Definition rejected (key : string) (env : Env) (token : string) : Response :=
  match decode key token with
  | Some _ => jsonify (JObj [("msg", JStr "Token has expired")]) 401
  | None =>
      match (r ← strip_prefix key token; '(_, r) ← split_dot r; '(_, r) ← split_dot r; Some r) with
      | Some (String "i" _) => jsonify (JObj [("msg", JStr "Subject must be a string")]) 422
      | _ => jsonify (JObj [("msg", JStr "Invalid token")]) 422
      end
  end.

Definition app : App := mkApp "secret" 1000 1001 1002.

#[export] Instance libraries : Libraries := {
  generate_password_hash password _ := password;
  check_password_hash pwhash password := String.eqb pwhash password;
  jwt_encode := encode;
  jwt_decode := decode;
  rejected_token_response := rejected (JWT_SECRET_KEY app)
}.

End Reference.

(** ** Sample data *)

Definition alice : gmap string json :=
  {[ "name" := JStr "Alice"; "email" := JStr "alice@example.com";
     "password" := JStr "secret123" ]}.

Definition alice_row : User.t := User.mk 1 "alice@example.com" "secret123" "Alice".

Definition milk : Task.t := Task.mk 1 1 "Buy milk" (Some "2 liters") false 1000 1001.
Definition eggs : Task.t := Task.mk 2 1 "Buy eggs" None true 1000 1002.
Definition house : Task.t := Task.mk 3 1 "Clean house" (Some "") false 1000 1001.

Definition one_user : DB := mkDB [alice_row] [milk; eggs; house].

Definition no_args : Args := mkArgs None None None None None None.

(** ** Requests that differ in one query parameter *)



Definition with_completed (v : option string) (args : Args) : Args :=
  mkArgs (arg_page args) (arg_limit args) v (arg_search args)
         (arg_sort args) (arg_order args).

Definition with_search (v : option string) (args : Args) : Args :=
  mkArgs (arg_page args) (arg_limit args) (arg_completed args) v
         (arg_sort args) (arg_order args).

(** The filter of a list request as one predicate on tasks: the owner
    scope, the [completed] filter [c] and the search. *)
Definition matching (current_user_id : Z) (c : option bool) (args : Args) (t : Task.t) : bool :=
  (Task.owner_id t =? current_user_id)
  && match c with Some b => Bool.eqb (Task.completed t) b | None => true end
  && search_filter args t.

(** ** Responses and readers used by the further properties *)

Definition email_registered : Response :=
  jsonify (JObj [("error", JStr "Email already registered")]) 409.

Definition missing_register_fields : Response :=
  jsonify (JObj [("error", JStr "Missing required fields: name, email, password")]) 400.

Definition invalid_credentials : Response :=
  jsonify (JObj [("error", JStr "Invalid credentials")]) 401.

Definition missing_title : Response :=
  jsonify (JObj [("error", JStr "Missing required field: title")]) 400.

(** The listing payload of [get_tasks]. *)
Definition listing (items : list Task.t) (page limit total : Z) : Response :=
  jsonify (JObj [("data", JArr (task_to_dict <$> items));
                 ("page", JInt page);
                 ("limit", JInt limit);
                 ("total", JInt total)]) 200.

Definition invalid_title : Response :=
  jsonify (JObj [("error", JStr "Invalid title")]) 400.

Definition completed_not_boolean : Response :=
  jsonify (JObj [("error", JStr "completed must be boolean")]) 400.

Definition with_sort (v : option string) (args : Args) : Args :=
  mkArgs (arg_page args) (arg_limit args) (arg_completed args) (arg_search args)
         v (arg_order args).

Definition with_order (v : option string) (args : Args) : Args :=
  mkArgs (arg_page args) (arg_limit args) (arg_completed args) (arg_search args)
         (arg_sort args) v.



(** ** More sample data *)

Definition bob_row : User.t := User.mk 2 "bob@example.com" "1234" "Bob".

Definition laundry : Task.t := Task.mk 4 2 "Laundry" (Some "Whites first") false 1000 1001.

Definition two_users : DB := mkDB [alice_row; bob_row] [milk; eggs; house; laundry].

Definition eve : gmap string json :=
  {[ "name" := JStr "Eve"; "email" := JStr "alice@example.com";
     "password" := JStr "another" ]}.

Definition ref_env : Env := mkEnv 100 "salt".

(** U+00A0, a no-break space, and U+00E9, an e with acute accent, in UTF-8. *)
Definition no_break_space : string :=
  String (ascii_of_nat 194) (String (ascii_of_nat 160) EmptyString).

Definition e_acute : string :=
  String (ascii_of_nat 195) (String (ascii_of_nat 169) EmptyString).

(** * Properties *)

(** ** The handlers at work *)

Example strip_new : strip "  New  " = "New".
Proof. reflexivity. Qed.

Example strip_no_break_space :
  strip (no_break_space ++ " New" ++ no_break_space) = "New"
  /\ strip (" " ++ no_break_space) = ""
  /\ strip (e_acute ++ " ") = e_acute.
Proof. repeat split. Qed.

Example lower_mixed : lower "FaLsE" = "false".
Proof. reflexivity. Qed.

Example like_wildcards :
  like "%uy m%" "buy milk" = true /\ like "b_y%" "buy milk" = true
  /\ like "%eggs%" "buy milk" = false.
Proof. repeat split. Qed.

Example like_one_character :
  like "caf_" ("caf" ++ e_acute) = true
  /\ like "caf__" ("caf" ++ e_acute) = false
  /\ like "%a_b%" ("a" ++ e_acute ++ "b") = true
  /\ like "%_s" ("caf" ++ e_acute ++ "s") = true.
Proof. repeat split. Qed.

Example absent_id_beyond_64_bits :
  run (update_task (mkApp "" 0 0 0) 1 (2 ^ 63) ∅) one_user = (server_error, one_user)
  /\ run (update_task (mkApp "" 0 0 0) 1 (2 ^ 63 - 1) ∅) one_user = (task_not_found, one_user).
Proof. split; reflexivity. Qed.

Example page_beyond_64_bits :
  let args := mkArgs (Some (10 ^ 17)) (Some 100) None None None None in
  normal_page args = 10 ^ 17 /\ normal_limit args = 100
  /\ run (get_tasks 1 args) one_user = (server_error, one_user).
Proof. repeat split. Qed.

Example search_buy :
  run (get_tasks 1 (with_search (Some "BUY") no_args)) one_user
  = (jsonify (JObj [("data", JArr (task_to_dict <$> [milk; eggs]));
                    ("page", JInt 1); ("limit", JInt 10); ("total", JInt 2)]) 200,
     one_user).
Proof. reflexivity. Qed.

Example sort_by_title_asc :
  run (get_tasks 1 (mkArgs None (Some 2) None None (Some "title") (Some "ASC"))) one_user
  = (jsonify (JObj [("data", JArr (task_to_dict <$> [eggs; milk]));
                    ("page", JInt 1); ("limit", JInt 2); ("total", JInt 3)]) 200,
     one_user).
Proof. reflexivity. Qed.

Example delete_own_task :
  run (delete_task 1 2) one_user
  = (mkResponse EmptyBody 204, mkDB [alice_row] [milk; house]).
Proof. reflexivity. Qed.

Example reference_token :
  create_access_token (lib := Reference.libraries) Reference.app (mkEnv 200 "") (IdInt 1)
  = "secret200.3800.i1".
Proof. reflexivity. Qed.

(** ** Decimal text *)

Lemma to_int_not_nil (n : Z) : Z.to_int n <> Pos Nil /\ Z.to_int n <> Neg Nil.
Proof.
  destruct n as [|p|p]; simpl; split; try discriminate;
    intros E; injection E; apply Unsigned.to_uint_nonnil.
Qed.

Lemma uint_text_head (d : uint) :
  match NilZero.string_of_uint d with
  | String c _ => c <> "+"%char /\ c <> "-"%char /\ c <> "."%char
  | EmptyString => False
  end.
Proof. destruct d; simpl; repeat split; discriminate. Qed.

(** [int(str(n)) == n] *)
Lemma py_int_str (n : Z) : py_int (py_str n) = Some n.
Proof.
  unfold py_str, py_int.
  destruct (to_int_not_nil n) as [Hp Hn].
  assert (E : Z.of_int <$> NilZero.int_of_string (NilZero.string_of_int (Z.to_int n)) = Some n).
  { rewrite NilZero.isi by assumption. simpl. f_equal. apply DecimalZ.of_to. }
  destruct (Z.to_int n) as [d|d]; simpl in *.
  - pose proof (uint_text_head d) as Hh.
    destruct (NilZero.string_of_uint d) as [|c r]; [contradiction|].
    destruct Hh as (Hplus & _).
    destruct (Ascii.eqb_spec c "+"); [contradiction|].
    destruct c as [[] [] [] [] [] [] [] []]; try exact E; contradiction.
  - exact E.
Qed.

(** ** Handlers, step by step *)

Ltac unfold_handler :=
  unfold run, user_by_email, task_by_id, commit_new_user, commit_new_task,
    commit_task, commit_delete, bind, ret, respond, read_db, write_db in *.

Lemma truthy_str (s : string) : s <> "" -> truthy (JStr s) = true.
Proof.
  intros Hs. simpl. destruct (String.eqb_spec s ""); [contradiction | reflexivity].
Qed.

Lemma dict_get_some (data : gmap string json) key v :
  data !! key = Some v -> dict_get data key = v.
Proof. intros E. unfold dict_get. now rewrite E. Qed.

Lemma find_email_fresh (email : string) (l : list User.t) :
  (forall u, u ∈ l -> User.email u <> email) ->
  find (fun u => String.eqb (User.email u) email) l = None.
Proof.
  induction l as [|u l IH]; intros Hfresh; simpl; [reflexivity|].
  destruct (String.eqb_spec (User.email u) email) as [E|_].
  - exfalso. apply (Hfresh u); [left | exact E].
  - apply IH. intros v Hv. apply Hfresh. now right.
Qed.

Lemma find_email_new (l : list User.t) (u : User.t) :
  (forall v, v ∈ l -> User.email v <> User.email u) ->
  find (fun v => String.eqb (User.email v) (User.email u)) (l ++ [u]) = Some u.
Proof.
  induction l as [|w l IH]; intros Hfresh; simpl.
  - now rewrite String.eqb_refl.
  - destruct (String.eqb_spec (User.email w) (User.email u)) as [E|_].
    + exfalso. apply (Hfresh w); [left | exact E].
    + apply IH. intros v Hv. apply Hfresh. now right.
Qed.

(** C1.  For a valid registration (non-empty name, email and password,
    the email not yet in the store), [register] succeeds with 201 and
    creates a user, and [login] with the same email and password then
    succeeds with 200 and returns a token.  That token does not verify:
    [login] passes the integer id as the identity, where [register]
    passes its decimal text, and the codec refuses a subject that is not
    a string.  So it resolves to no user id, and every protected route
    called with it gets the library's rejection, whatever the time.  The
    libraries are assumed to accept the password a hash was made from and
    to refuse an integer subject when they decode. *)
Theorem login_token_is_refused {lib : Libraries} (app : App) (env1 env2 env3 : Env)
    (db : DB) (data creds : gmap string json) (name email password : string) :
  (forall p s, check_password_hash (generate_password_hash p s) p = true) ->
  (forall k c n, sub c = IdInt n -> jwt_decode k (jwt_encode k c) = None) ->
  data !! "name" = Some (JStr name) ->
  data !! "email" = Some (JStr email) ->
  data !! "password" = Some (JStr password) ->
  name <> "" -> email <> "" -> password <> "" ->
  (forall u, u ∈ users db -> User.email u <> email) ->
  creds !! "email" = Some (JStr email) ->
  creds !! "password" = Some (JStr password) ->
  let user := User.mk (next_id (User.id <$> users db)) email
                      (generate_password_hash password (salt env1)) name in
  let db' := mkDB (users db ++ [user]) (tasks db) in
  let token := create_access_token app env2 (IdInt (User.id user)) in
  run (register app env1 data) db
    = (jsonify (JObj [("token", JStr (create_access_token app env1
                                        (IdStr (py_str (User.id user)))));
                      ("user", user_to_dict user)]) 201, db')
  /\ run (login app env2 creds) db'
    = (jsonify (JObj [("token", JStr token); ("user", user_to_dict user)]) 200, db')
  /\ verify app env3 token = None
  /\ forall view store,
       run (jwt_required app env3 (Some token) view) store
       = (rejected_token_response env3 token, store).
Proof.
  intros Hhash Hjwt Hn He Hp Nn Ne Np Hfresh Hce Hcp user db' token.
  assert (Hv : verify app env3 token = None).
  { unfold verify, token, create_access_token.
    now rewrite (Hjwt _ _ (User.id user)). }
  repeat split.
  - unfold register.
    rewrite (dict_get_some _ _ _ Hn), (dict_get_some _ _ _ He), (dict_get_some _ _ _ Hp).
    rewrite !truthy_str by assumption. simpl.
    unfold_handler. simpl.
    rewrite (find_email_fresh email (users db) Hfresh). reflexivity.
  - unfold login.
    rewrite (dict_get_some _ _ _ Hce), (dict_get_some _ _ _ Hcp).
    rewrite !truthy_str by assumption. simpl.
    unfold_handler. simpl.
    pose proof (find_email_new (users db) user Hfresh) as Hfound.
    simpl in Hfound. rewrite Hfound.
    simpl. rewrite Hhash. reflexivity.
  - exact Hv.
  - intros view store. unfold jwt_required. rewrite Hv. reflexivity.
Qed.

(** The token that [register] itself returns carries [str(id)]; it
    resolves to the same id through [int]. *)
Lemma register_token_resolves {lib : Libraries} (app : App) (env1 env3 : Env) (uid : Z) :
  (forall k c s, sub c = IdStr s -> jwt_decode k (jwt_encode k c) = Some c) ->
  now env3 <= now env1 + JWT_ACCESS_TOKEN_EXPIRES ->
  forall view,
    jwt_required app env3 (Some (create_access_token app env1 (IdStr (py_str uid)))) view
    = view uid.
Proof.
  intros Hjwt Hexp view. unfold jwt_required, verify, create_access_token.
  rewrite (Hjwt _ _ (py_str uid)) by reflexivity. cbn [exp sub].
  destruct (Z.ltb_spec (now env1 + JWT_ACCESS_TOKEN_EXPIRES) (now env3)); [lia|].
  cbn [int_identity]. now rewrite py_int_str.
Qed.

(** ** Ownership and existence *)

Lemma find_task_present (rows : list Task.t) (t : Task.t) :
  NoDup (Task.id <$> rows) -> t ∈ rows ->
  find (fun x => Task.id x =? Task.id t) rows = Some t.
Proof.
  induction rows as [|x rows IH]; intros Hnd Hin.
  - inversion Hin.
  - simpl in *. apply NoDup_cons in Hnd as [Hx Hnd].
    apply elem_of_cons in Hin as [->|Hin].
    + now rewrite Z.eqb_refl.
    + destruct (Z.eqb_spec (Task.id x) (Task.id t)) as [E|_].
      * exfalso. apply Hx. rewrite E. apply list_elem_of_fmap. now exists t.
      * now apply IH.
Qed.

Lemma find_task_absent (rows : list Task.t) (task_id : Z) :
  (forall t, t ∈ rows -> Task.id t <> task_id) ->
  find (fun x => Task.id x =? task_id) rows = None.
Proof.
  induction rows as [|x rows IH]; intros Habs; simpl; [reflexivity|].
  destruct (Z.eqb_spec (Task.id x) task_id) as [E|_].
  - exfalso. apply (Habs x); [left | exact E].
  - apply IH. intros t Ht. apply Habs. now right.
Qed.

(** C2.  In a store whose task ids are unique (the primary key), for a
    task [t] of the store and an acting user [u] other than its owner,
    [update_task] (whatever the patch) and [delete_task] answer 403
    Forbidden, not 404, and change nothing.  For a task id that no row
    has, both answer 404 Not Found, whoever the acting user is, only
    when the id is a signed 64-bit integer: for any other id, which the
    route accepts all the same, the lookup raises and both answer 500
    where the claim says 404.  The store is unchanged in both cases. *)
Theorem update_delete_forbidden_or_not_found (app : App) (db : DB) (u : Z)
    (data : gmap string json) :
  NoDup (Task.id <$> tasks db) ->
  (forall t, t ∈ tasks db -> u <> Task.owner_id t ->
     run (update_task app u (Task.id t) data) db = (forbidden, db)
     /\ run (delete_task u (Task.id t)) db = (forbidden, db)
     /\ status forbidden = 403 /\ status forbidden <> 404)
  /\ (forall task_id, (forall t, t ∈ tasks db -> Task.id t <> task_id) ->
     sqlite_int task_id = true ->
     run (update_task app u task_id data) db = (task_not_found, db)
     /\ run (delete_task u task_id) db = (task_not_found, db)
     /\ status task_not_found = 404)
  /\ (forall task_id, (forall t, t ∈ tasks db -> Task.id t <> task_id) ->
     sqlite_int task_id = false ->
     run (update_task app u task_id data) db = (server_error, db)
     /\ run (delete_task u task_id) db = (server_error, db)
     /\ status server_error = 500).
Proof.
  intros Hnd. split; [|split].
  - intros t Hin Hu.
    pose proof (find_task_present _ _ Hnd Hin) as Hfind.
    assert (Ho : (Task.owner_id t =? u) = false) by (apply Z.eqb_neq; congruence).
    unfold update_task, delete_task. unfold_handler. simpl.
    rewrite Hfind, Ho. simpl. repeat split; discriminate.
  - intros task_id Habs Hid.
    pose proof (find_task_absent _ _ Habs) as Hfind.
    unfold update_task, delete_task. unfold_handler. simpl.
    rewrite Hfind, Hid. repeat split.
  - intros task_id Habs Hid.
    pose proof (find_task_absent _ _ Habs) as Hfind.
    unfold update_task, delete_task. unfold_handler. simpl.
    rewrite Hfind, Hid. repeat split.
Qed.

(** ** Updates, committed or not *)

Lemma replace_row_ids (row : Task.t) (rows : list Task.t) :
  Task.id <$> replace_row row rows = Task.id <$> rows.
Proof.
  unfold replace_row. induction rows as [|t rows IH]; simpl; [reflexivity|].
  f_equal; [|exact IH].
  destruct (Z.eqb_spec (Task.id t) (Task.id row)); congruence.
Qed.

(** [commit_task] either hands back a row, having kept the users and the
    list of task ids, or fails with the 500 response and writes nothing. *)
Lemma commit_task_outcome (app : App) (o : TaskObject) (db : DB) :
  (exists row db', commit_task app o db = (inr row, db')
      /\ users db' = users db /\ Task.id <$> tasks db' = Task.id <$> tasks db)
  \/ commit_task app o db = (inl server_error, db).
Proof.
  unfold commit_task.
  destruct (title_changed o || description_changed o || completed_changed o).
  - destruct (updated_row app o) as [row|].
    + left. unfold_handler. simpl. eexists _, _. split; [reflexivity|].
      split; [reflexivity|]. simpl. apply replace_row_ids.
    + right. reflexivity.
  - left. unfold_handler. eauto.
Qed.

(** Whatever the patch, [update_task] either answers something other
    than 200 and writes nothing, or answers 200 and keeps the users and
    the list of task ids. *)
Ltac case_patch :=
  repeat match goal with
  | |- context [if is_not_none ?v then _ else _] => destruct (is_not_none v)
  | |- context [match dict_get ?d ?k with _ => _ end] => destruct (dict_get d k)
  | |- context [if String.eqb (strip ?t) "" then _ else _] =>
      destruct (String.eqb (strip t) "")
  end.

Ltac failed_unchanged :=
  eexists _, _; split; [reflexivity | left; split; [discriminate | reflexivity]].

Lemma update_task_outcome (app : App) (u task_id : Z) (data : gmap string json) (db : DB) :
  exists r db', run (update_task app u task_id data) db = (r, db')
    /\ ((status r <> 200 /\ db' = db)
        \/ (status r = 200 /\ users db' = users db
            /\ Task.id <$> tasks db' = Task.id <$> tasks db)).
Proof.
  unfold update_task, run, task_by_id, bind, ret, respond, read_db.
  destruct (find _ (tasks db)) as [task|];
    [|destruct (sqlite_int task_id); failed_unchanged].
  destruct (negb (Task.owner_id task =? u)); [failed_unchanged|].
  case_patch; try failed_unchanged.
  all: match goal with |- context [commit_task ?a ?o ?d] =>
         destruct (commit_task_outcome a o d) as [(row & db1 & -> & Hu & Hi)| ->] end.
  all: try failed_unchanged.
  all: eexists _, _; split; [reflexivity|right; split; [reflexivity|split; assumption]].
Qed.

(** C5. An [update_task] call that does not answer 200, be it 404, 403,
    or a 400 for the title or for [completed] (also when a valid title
    or description came before it in the same patch), leaves the whole
    database, and so the task, exactly as it was. *)
Theorem failed_update_leaves_store (app : App) (u task_id : Z) (data : gmap string json)
    (db db' : DB) (r : Response) :
  run (update_task app u task_id data) db = (r, db') ->
  status r <> 200 ->
  db' = db.
Proof.
  intros Hrun Hfail.
  destruct (update_task_outcome app u task_id data db) as (r0 & db0 & Hrun0 & Hcase).
  rewrite Hrun in Hrun0. injection Hrun0 as <- <-.
  destruct Hcase as [[_ Hsame]|[Hok _]]; [exact Hsame | contradiction].
Qed.

(** ** Primary keys stay unique *)

Lemma next_id_above (ids : list Z) (i : Z) : i ∈ ids -> i < next_id ids.
Proof.
  unfold next_id. induction ids as [|j ids IH]; intros Hin; [inversion Hin|].
  simpl. apply elem_of_cons in Hin as [->|Hin]; [lia|].
  specialize (IH Hin). lia.
Qed.

Lemma next_id_fresh (ids : list Z) : next_id ids ∉ ids.
Proof. intros Hin. apply next_id_above in Hin. lia. Qed.

(** X21. No task route breaks the uniqueness of task ids: if the ids of
    the task table are pairwise different before [add_new_task],
    [update_task], [delete_task] or [get_tasks] runs, whatever the
    request and its outcome, they are pairwise different after it. *)
Lemma task_ids_stay_unique (app : App) (u task_id : Z) (data : gmap string json)
    (args : Args) (db : DB) :
  NoDup (Task.id <$> tasks db) ->
  NoDup (Task.id <$> tasks (snd (run (add_new_task app u data) db)))
  /\ NoDup (Task.id <$> tasks (snd (run (update_task app u task_id data) db)))
  /\ NoDup (Task.id <$> tasks (snd (run (delete_task u task_id) db)))
  /\ NoDup (Task.id <$> tasks (snd (run (get_tasks u args) db))).
Proof.
  intros Hnd. repeat split.
  - unfold add_new_task.
    destruct (negb (truthy (dict_get data "title"))); [exact Hnd|].
    destruct (bind_text (dict_get data "title")) as [[title|]|]; try exact Hnd.
    destruct (bind_text (dict_get_default data "description" (JStr ""))) as [d|];
      [|exact Hnd].
    unfold_handler. simpl. rewrite fmap_app. apply NoDup_app. split; [exact Hnd|].
    split; [|apply NoDup_singleton].
    intros i Hi ->%list_elem_of_singleton. now apply next_id_fresh in Hi.
  - destruct (update_task_outcome app u task_id data db) as (r & db' & -> & Hcase).
    simpl. destruct Hcase as [[_ ->]|(_ & _ & ->)]; exact Hnd.
  - unfold delete_task. unfold_handler. simpl.
    destruct (find _ (tasks db)) as [task|];
      [|destruct (sqlite_int task_id); exact Hnd].
    destruct (negb (Task.owner_id task =? u)); [exact Hnd|]. simpl.
    eapply sublist_NoDup; [exact Hnd|].
    apply fmap_sublist, sublist_filter.
  - unfold get_tasks. destruct (completed_filter args); [|exact Hnd].
    unfold_handler. destruct (paginate_query _ _ _) as [[items total]|]; exact Hnd.
Qed.

(** ** Listing: parameters *)

Lemma normal_page_ge (args : Args) : 1 <= normal_page args.
Proof.
  unfold normal_page. destruct (Z.ltb_spec (default 1 (arg_page args)) 1); lia.
Qed.

Lemma normal_limit_range (args : Args) : 1 <= normal_limit args <= 100.
Proof.
  unfold normal_limit.
  destruct (Z.ltb_spec (default 10 (arg_limit args)) 1); simpl; [lia|].
  destruct (Z.gtb_spec (default 10 (arg_limit args)) 100); lia.
Qed.

(** With a limit in 1..100 only the offset can be out of range. *)
Lemma paginate_query_offset (q : list Task.t) (page limit : Z) :
  1 <= limit <= 100 ->
  paginate_query q page limit
  = if sqlite_int ((page - 1) * limit)
    then Some (take (Z.to_nat limit) (drop (Z.to_nat ((page - 1) * limit)) q),
               Z.of_nat (length q))
    else None.
Proof.
  intros Hl. unfold paginate_query.
  assert (Hs : sqlite_int limit = true).
  { unfold sqlite_int. apply andb_true_iff. split; apply Z.leb_le; lia. }
  rewrite Hs, andb_true_r.
  destruct (Z.ltb_spec limit 0); [lia | reflexivity].
Qed.

(** What [get_tasks] answers once the [completed] parameter is accepted. *)
Lemma get_tasks_answer (uid : Z) (args : Args) (db : DB) (c : option bool) :
  completed_filter args = Some c ->
  let q := selected uid c args (tasks db) in
  let page := normal_page args in
  let limit := normal_limit args in
  run (get_tasks uid args) db
  = (if sqlite_int ((page - 1) * limit)
     then listing (take (Z.to_nat limit) (drop (Z.to_nat ((page - 1) * limit)) q))
                  page limit (Z.of_nat (length q))
     else server_error, db).
Proof.
  intros Hc q page limit. unfold get_tasks. rewrite Hc. unfold_handler.
  fold q page limit.
  rewrite (paginate_query_offset q page limit (normal_limit_range args)).
  destruct (sqlite_int ((page - 1) * limit)); reflexivity.
Qed.


(** C9. The [completed] parameter is compared in lower case: a value
    whose lower-case form is "true" or "1" filters exactly as "true"
    does (completed tasks only), one whose lower-case form is "false" or
    "0" exactly as "false" does; "True" and "FALSE" are such values.  The
    request is answered 400 if and only if the parameter is present and
    its lower-case form is none of the four. *)
Theorem completed_param_values (uid : Z) (args : Args) (db : DB) :
  (forall s, lower s = "true" \/ lower s = "1" ->
     completed_filter (with_completed (Some s) args) = Some (Some true)
     /\ get_tasks uid (with_completed (Some s) args) db
        = get_tasks uid (with_completed (Some "true") args) db)
  /\ (forall s, lower s = "false" \/ lower s = "0" ->
     completed_filter (with_completed (Some s) args) = Some (Some false)
     /\ get_tasks uid (with_completed (Some s) args) db
        = get_tasks uid (with_completed (Some "false") args) db)
  /\ lower "True" = "true" /\ lower "FALSE" = "false"
  /\ (status (fst (run (get_tasks uid args) db)) = 400
      <-> exists v, arg_completed args = Some v
            /\ lower v <> "true" /\ lower v <> "1"
            /\ lower v <> "false" /\ lower v <> "0").
Proof.
  split; [|split; [|split; [reflexivity|split; [reflexivity|split]]]].
  - intros s Hs. unfold get_tasks, completed_filter. simpl.
    destruct Hs as [-> | ->]; split; reflexivity.
  - intros s Hs. unfold get_tasks, completed_filter. simpl.
    destruct Hs as [-> | ->]; split; reflexivity.
  - unfold get_tasks, completed_filter.
    destruct (arg_completed args) as [v|].
    2:{ unfold_handler. simpl. destruct (paginate_query _ _ _) as [[items total]|]; discriminate. }
    intros Hs. exists v. split; [reflexivity|].
    repeat split; intros E; rewrite E in Hs; unfold_handler; simpl in Hs;
      destruct (paginate_query _ _ _) as [[items total]|]; discriminate.
  - intros (v & Hv & H1 & H2 & H3 & H4).
    unfold get_tasks, completed_filter. rewrite Hv.
    destruct (String.eqb_spec (lower v) "true"); [contradiction|].
    destruct (String.eqb_spec (lower v) "1"); [contradiction|].
    destruct (String.eqb_spec (lower v) "false"); [contradiction|].
    destruct (String.eqb_spec (lower v) "0"); [contradiction|].
    reflexivity.
Qed.

(** ** Listing: pagination *)

Lemma insert_by_perm le x l : insert_by le x l ≡ₚ x :: l.
Proof.
  induction l as [|y l IH]; simpl; [reflexivity|].
  destruct (le x y); [reflexivity|].
  rewrite IH. apply perm_swap.
Qed.

Lemma order_by_perm le l : order_by le l ≡ₚ l.
Proof.
  induction l as [|x l IH]; simpl; [reflexivity|].
  rewrite insert_by_perm. now rewrite IH.
Qed.

Lemma selected_perm uid c args rows :
  selected uid c args rows ≡ₚ filter (matching uid c args) rows.
Proof.
  unfold selected. rewrite order_by_perm.
  assert (E : forall P Q : Task.t -> bool, forall l : list Task.t,
            filter P (filter Q l) = filter (fun t => Q t && P t) l).
  { intros P Q l. rewrite list_filter_filter. apply list_filter_iff.
    intros t. destruct (P t), (Q t); simpl; tauto. }
  destruct c as [b|].
  - rewrite !E. apply Permutation_refl'. apply list_filter_iff.
    intros t. unfold matching.
    destruct (Task.owner_id t =? uid), (Bool.eqb (Task.completed t) b),
      (search_filter args t); simpl; tauto.
  - rewrite E. apply Permutation_refl'. apply list_filter_iff.
    intros t. unfold matching. now rewrite andb_true_r.
Qed.







(** ** Listing: the empty search *)

(** C10. A list request whose [search] is the empty string is the same
    computation as that request without [search]: same items in the same
    order, same total, for every store and all other options.  No search
    filter is applied: the rows selected are all the rows of the acting
    user that pass the completed filter, whatever their texts. *)
Theorem empty_search_is_no_search (uid : Z) (args : Args) (db : DB) :
  run (get_tasks uid (with_search (Some "") args)) db
  = run (get_tasks uid (with_search None args)) db
  /\ forall c t,
       t ∈ selected uid c (with_search (Some "") args) (tasks db)
       <-> t ∈ tasks db /\ Task.owner_id t = uid
           /\ match c with Some b => Task.completed t = b | None => True end.
Proof.
  split; [reflexivity|].
  intros c t. rewrite selected_perm, list_elem_of_filter.
  unfold matching, search_filter. simpl.
  destruct (Z.eqb_spec (Task.owner_id t) uid) as [Ho|Ho]; destruct c as [b|]; simpl.
  all: try destruct (Task.completed t), b; simpl; intuition congruence.
Qed.

(** ** Creating tasks *)

(** [add_new_task] answers 400 exactly when the title is falsy: absent,
    null, the empty string, [false], 0 or an empty container. *)
Lemma add_new_task_400 (app : App) (uid : Z) (data : gmap string json) (db : DB) :
  status (fst (run (add_new_task app uid data) db)) = 400
  <-> truthy (dict_get data "title") = false.
Proof.
  unfold add_new_task.
  destruct (truthy (dict_get data "title")) eqn:Ht; simpl.
  - split; [|discriminate].
    destruct (bind_text (dict_get data "title")) as [[title|]|];
      [destruct (bind_text (dict_get_default data "description" (JStr ""))) as [d|]|..];
      unfold_handler; simpl; discriminate.
  - unfold_handler. simpl. tauto.
Qed.

(** C3, evaluated at a title of three spaces.  [update_task] refuses such
    a title (it is empty once stripped), [add_new_task] stores it with
    201; the two timestamps of the new row are the values computed when
    the module was imported, whatever the time of the request. *)
Theorem add_new_task_accepts_blank_title (app : App) (uid : Z) (db : DB) :
  let task := Task.mk (next_id (Task.id <$> tasks db)) uid "   " (Some "") false
                      (created_at_default app) (updated_at_default app) in
  strip "   " = ""
  /\ run (add_new_task app uid {[ "title" := JStr "   " ]}) db
     = (jsonify (task_to_dict task) 201, mkDB (users db) (tasks db ++ [task]))
  /\ run (update_task app uid (Task.id task) {[ "title" := JStr "   " ]})
         (mkDB (users db) [task])
     = (jsonify (JObj [("error", JStr "Invalid title")]) 400, mkDB (users db) [task]).
Proof.
  intros task. split; [reflexivity|]. split.
  - reflexivity.
  - unfold update_task. unfold_handler. simpl.
    rewrite !Z.eqb_refl. reflexivity.
Qed.

(** ** Updating tasks *)

(** C4, evaluated on a task that is updated twice.  The second update,
    with patch title "  New  ", succeeds and stores "New", and
    [updated_at] is what it was before: the [onupdate] value computed at
    import, not a later instant. *)
Theorem second_update_keeps_updated_at :
  let app := Reference.app in
  let db0 := mkDB [] [] in
  let db1 := snd (run (add_new_task app 1 {[ "title" := JStr "Old" ]}) db0) in
  let db2 := snd (run (update_task app 1 1 {[ "completed" := JBool true ]}) db1) in
  let '(r, db3) := run (update_task app 1 1 {[ "title" := JStr "  New  " ]}) db2 in
  status r = 200
  /\ Task.title <$> tasks db3 = ["New"]
  /\ Task.updated_at <$> tasks db2 = [updated_at_onupdate app]
  /\ Task.updated_at <$> tasks db3 = Task.updated_at <$> tasks db2.
Proof. vm_compute. repeat split. Qed.

(** After [commit_task] a row carries its old [updated_at] or the
    import-time [onupdate] value, never anything else. *)
Lemma commit_task_updated_at (app : App) (o : TaskObject) (db db' : DB) (row : Task.t) :
  commit_task app o db = (inr row, db') ->
  Task.updated_at row = Task.updated_at (loaded o)
  \/ Task.updated_at row = updated_at_onupdate app.
Proof.
  unfold commit_task.
  destruct (title_changed o || description_changed o || completed_changed o).
  - destruct (updated_row app o) as [row'|] eqn:Hrow.
    + unfold_handler. simpl. intros [= <- _]. right.
      unfold updated_row in Hrow.
      destruct (match new_description o with Some _ => _ | None => _ end);
        [|discriminate].
      simpl in Hrow. now injection Hrow as <-.
    + unfold_handler. discriminate.
  - unfold_handler. intros [= <- _]. now left.
Qed.

(** ** Unauthorized responses *)

(** C8 fails at a failed login: its 401 carries "Invalid credentials",
    not the body of [custom_unauthorized_response]. *)
Lemma failed_login_has_other_body :
  run (login (lib := Reference.libraries) Reference.app (mkEnv 0 "")
         {[ "email" := JStr "alice@example.com"; "password" := JStr "secret123" ]})
      (mkDB [] [])
  = (jsonify (JObj [("error", JStr "Invalid credentials")]) 401, mkDB [] [])
  /\ body (jsonify (JObj [("error", JStr "Invalid credentials")]) 401)
     <> body (custom_unauthorized_response "Missing Authorization Header").
Proof. split; [reflexivity | discriminate]. Qed.

(** C8, amended.  A request to any of the four protected task routes
    that carries no token is answered 401 with the fixed body
    [{"error": "Missing or invalid token"}] and changes nothing; every
    401 of [login], for an unknown email as for a wrong password, has
    the one body [{"error": "Invalid credentials"}]. *)
Theorem unauthorized_bodies {lib : Libraries} (app : App) (env : Env) (db : DB) :
  let missing := jsonify (JObj [("error", JStr "Missing or invalid token")]) 401 in
  (forall data, run (post_todos app env None data) db = (missing, db))
  /\ (forall task_id data, run (put_todo app env None task_id data) db = (missing, db))
  /\ (forall task_id, run (delete_todo app env None task_id) db = (missing, db))
  /\ (forall args, run (get_todos app env None args) db = (missing, db))
  /\ (forall data r db', run (login app env data) db = (r, db') ->
        status r = 401 ->
        r = jsonify (JObj [("error", JStr "Invalid credentials")]) 401 /\ db' = db).
Proof.
  intros missing. do 4 (split; [reflexivity|]).
  intros data r db' Hrun H401. revert Hrun. unfold login.
  destruct (negb (truthy _) || negb (truthy _)).
  { unfold_handler. intros [= <- _]. discriminate. }
  destruct (bind_text (dict_get data "email")) as [[email|]|];
    try (unfold_handler; intros [= <- _]; discriminate).
  unfold_handler. simpl.
  destruct (find _ (users db)) as [user|]; [|now intros [= <- <-]].
  destruct (dict_get data "password") as [| | |password| |];
    try (intros [= <- _]; discriminate).
  destruct (negb (check_password_hash _ password)); [now intros [= <- <-]|].
  intros [= <- _]. discriminate.
Qed.

(** ** The reference libraries keep the contracts *)

Lemma reference_strip_prefix (k r : string) : Reference.strip_prefix k (k ++ r) = Some r.
Proof.
  induction k as [|c k IH]; simpl; [reflexivity|].
  now rewrite Ascii.eqb_refl.
Qed.

Lemma reference_split_digits (d : uint) (r : string) :
  Reference.split_dot (NilEmpty.string_of_uint d ++ String "." r)
  = Some (NilEmpty.string_of_uint d, r).
Proof. induction d; simpl; rewrite ?IHd; reflexivity. Qed.

Lemma reference_split_uint (d : uint) (r : string) :
  Reference.split_dot (NilZero.string_of_uint d ++ String "." r)
  = Some (NilZero.string_of_uint d, r).
Proof.
  destruct d; try apply reference_split_digits. reflexivity.
Qed.

Lemma reference_split_str (n : Z) (r : string) :
  Reference.split_dot (py_str n ++ String "." r) = Some (py_str n, r).
Proof.
  unfold py_str. destruct (Z.to_int n) as [d|d]; cbn [NilZero.string_of_int].
  - apply reference_split_uint.
  - change (Reference.split_dot
              (String "-" (NilZero.string_of_uint d ++ String "." r))
            = Some (String "-" (NilZero.string_of_uint d), r)).
    cbn [Reference.split_dot]. now rewrite reference_split_uint.
Qed.

(** Decoding inverts encoding for a string subject, *)
Lemma reference_decode_encode (k : string) (c : Claims) (s : string) :
  sub c = IdStr s -> Reference.decode k (Reference.encode k c) = Some c.
Proof.
  destruct c as [i a e]. cbn [sub]. intros ->.
  unfold Reference.decode, Reference.encode.
  cbn [sub iat exp]. rewrite reference_strip_prefix.
  repeat change ("." ++ ?x)%string with (String "." x).
  unfold mbind, option_bind.
  rewrite reference_split_str, reference_split_str, !py_int_str.
  reflexivity.
Qed.

(** and refuses an integer subject. *)
Lemma reference_decode_refuses (k : string) (c : Claims) (n : Z) :
  sub c = IdInt n -> Reference.decode k (Reference.encode k c) = None.
Proof.
  destruct c as [i a e]. cbn [sub]. intros ->.
  unfold Reference.decode, Reference.encode.
  cbn [sub iat exp]. rewrite reference_strip_prefix.
  repeat change ("." ++ ?x)%string with (String "." x).
  unfold mbind, option_bind.
  rewrite reference_split_str, reference_split_str, !py_int_str.
  reflexivity.
Qed.

Lemma reference_check_generate (p s : string) :
  check_password_hash (Libraries := Reference.libraries)
    (generate_password_hash (Libraries := Reference.libraries) p s) p = true.
Proof. apply String.eqb_refl. Qed.

(** ** The statements at concrete requests *)

Lemma login_token_is_refused_witness :
  status (fst (run (register (lib := Reference.libraries) Reference.app (mkEnv 100 "salt") alice)
                   (mkDB [] []))) = 201
  /\ run (login (lib := Reference.libraries) Reference.app (mkEnv 200 "") alice)
         (mkDB [alice_row] [])
     = (jsonify (JObj [("token", JStr "secret200.3800.i1");
                       ("user", user_to_dict alice_row)]) 200, mkDB [alice_row] [])
  /\ verify (lib := Reference.libraries) Reference.app (mkEnv 300 "") "secret200.3800.i1" = None
  /\ run (get_todos (lib := Reference.libraries) Reference.app (mkEnv 300 "")
            (Some "secret200.3800.i1") no_args) (mkDB [alice_row] [])
     = (jsonify (JObj [("msg", JStr "Subject must be a string")]) 422, mkDB [alice_row] []).
Proof.
  pose proof (login_token_is_refused (lib := Reference.libraries) Reference.app
                (mkEnv 100 "salt") (mkEnv 200 "") (mkEnv 300 "") (mkDB [] [])
                alice alice "Alice" "alice@example.com" "secret123"
                reference_check_generate reference_decode_refuses) as W.
  destruct W as (R & Lg & V & P).
  - reflexivity.
  - reflexivity.
  - reflexivity.
  - discriminate.
  - discriminate.
  - discriminate.
  - intros u Hu. inversion Hu.
  - reflexivity.
  - reflexivity.
  - split; [now rewrite R|]. split; [exact Lg|]. split; [exact V|].
    exact (P (fun uid => get_tasks uid no_args) (mkDB [alice_row] [])).
Defined.

Lemma update_delete_forbidden_or_not_found_witness :
  run (update_task Reference.app 2 1 {[ "title" := JStr "Mine" ]}) one_user
    = (forbidden, one_user)
  /\ run (delete_task 2 1) one_user = (forbidden, one_user)
  /\ run (update_task Reference.app 2 7 {[ "title" := JStr "Mine" ]}) one_user
    = (task_not_found, one_user)
  /\ run (delete_task 2 7) one_user = (task_not_found, one_user)
  /\ run (delete_task 2 (2 ^ 63)) one_user = (server_error, one_user).
Proof.
  assert (Hnd : NoDup (Task.id <$> tasks one_user)).
  { apply (bool_decide_unpack _). vm_compute. exact I. }
  assert (Habs : forall task_id, 3 < task_id ->
                   forall t, t ∈ tasks one_user -> Task.id t <> task_id).
  { intros task_id Hid t Ht. unfold one_user, tasks in Ht.
    repeat (apply elem_of_cons in Ht as [->|Ht]; [simpl; lia|]).
    inversion Ht. }
  destruct (update_delete_forbidden_or_not_found Reference.app one_user 2
              {[ "title" := JStr "Mine" ]} Hnd) as (F & N & E).
  destruct (F milk) as (U & D & _); [left | vm_compute; discriminate|].
  destruct (N 7) as (U' & D' & _); [apply Habs; lia | reflexivity|].
  destruct (E (2 ^ 63)) as (_ & D'' & _); [apply Habs; lia | reflexivity|].
  exact (conj U (conj D (conj U' (conj D' D'')))).
Defined.

Lemma failed_update_leaves_store_witness :
  let patch : gmap string json := {[ "title" := JStr "Milk"; "completed" := JInt 1 ]} in
  status (fst (run (update_task Reference.app 1 1 patch) one_user)) = 400
  /\ snd (run (update_task Reference.app 1 1 patch) one_user) = one_user.
Proof.
  intros patch. split; [reflexivity|].
  apply (failed_update_leaves_store Reference.app 1 1 patch one_user _
           (fst (run (update_task Reference.app 1 1 patch) one_user))).
  - reflexivity.
  - vm_compute. discriminate.
Defined.



Lemma completed_param_values_witness :
  completed_filter (with_completed (Some "TRUE") no_args) = Some (Some true)
  /\ completed_filter (with_completed (Some "0") no_args) = Some (Some false)
  /\ status (fst (run (get_tasks 1 (with_completed (Some "banana") no_args)) one_user)) = 400.
Proof.
  destruct (completed_param_values 1 (with_completed (Some "banana") no_args) one_user)
    as (T & F & _ & _ & B).
  split; [apply (T "TRUE"); now left|].
  split; [apply (F "0"); now right|].
  apply B. exists "banana". repeat split; discriminate.
Defined.

Lemma unauthorized_bodies_witness :
  let creds : gmap string json :=
    {[ "email" := JStr "alice@example.com"; "password" := JStr "guess" ]} in
  run (get_todos (lib := Reference.libraries) Reference.app (mkEnv 0 "") None no_args) one_user
    = (jsonify (JObj [("error", JStr "Missing or invalid token")]) 401, one_user)
  /\ fst (run (login (lib := Reference.libraries) Reference.app (mkEnv 0 "") creds) one_user)
    = jsonify (JObj [("error", JStr "Invalid credentials")]) 401.
Proof.
  intros creds.
  destruct (unauthorized_bodies (lib := Reference.libraries) Reference.app (mkEnv 0 "") one_user)
    as (_ & _ & _ & G & Lg).
  split; [apply G|].
  apply (Lg creds _ (snd (run (login (lib := Reference.libraries) Reference.app
                                 (mkEnv 0 "") creds) one_user))).
  - reflexivity.
  - reflexivity.
Defined.

(** * Further properties of the routes *)

(** ** Registration *)

Lemma find_email_some (email : string) (l : list User.t) (u : User.t) :
  u ∈ l -> User.email u = email ->
  exists v, find (fun w => String.eqb (User.email w) email) l = Some v
            /\ v ∈ l /\ User.email v = email.
Proof.
  induction l as [|w l IH]; intros Hin He; [inversion Hin|].
  simpl. destruct (String.eqb_spec (User.email w) email) as [E|E].
  - exists w. repeat split; [left | exact E].
  - apply elem_of_cons in Hin as [->|Hin]; [contradiction|].
    destruct (IH Hin He) as (v & Hf & Hv & Hve).
    exists v. repeat split; [exact Hf | now right | exact Hve].
Qed.

Lemma find_email_unique (email : string) (l : list User.t) (u : User.t) :
  NoDup (User.email <$> l) -> u ∈ l -> User.email u = email ->
  find (fun w => String.eqb (User.email w) email) l = Some u.
Proof.
  induction l as [|w l IH]; intros Hnd Hin He; [inversion Hin|].
  simpl in *. apply NoDup_cons in Hnd as [Hw Hnd].
  apply elem_of_cons in Hin as [->|Hin].
  - subst email. now rewrite String.eqb_refl.
  - destruct (String.eqb_spec (User.email w) email) as [E|_].
    + exfalso. apply Hw. rewrite E, <- He. apply list_elem_of_fmap. now exists u.
    + now apply IH.
Qed.

Lemma register_fresh {lib : Libraries} (app : App) (env : Env) (db : DB)
    (data : gmap string json) (name email password : string) :
  dict_get data "name" = JStr name ->
  dict_get data "email" = JStr email ->
  dict_get data "password" = JStr password ->
  name <> "" -> email <> "" -> password <> "" ->
  (forall u, u ∈ users db -> User.email u <> email) ->
  let user := User.mk (next_id (User.id <$> users db)) email
                      (generate_password_hash password (salt env)) name in
  run (register app env data) db
  = (jsonify (JObj [("token", JStr (create_access_token app env
                                      (IdStr (py_str (User.id user)))));
                    ("user", user_to_dict user)]) 201,
     mkDB (users db ++ [user]) (tasks db)).
Proof.
  intros Hn He Hp Nn Ne Np Hfresh user. unfold register.
  rewrite Hn, He, Hp, !truthy_str by assumption. simpl.
  unfold_handler. simpl.
  now rewrite (find_email_fresh email (users db) Hfresh).
Qed.

(** X1. A registration whose email already belongs to a user of the
    store is answered 409 "Email already registered" and writes nothing,
    whatever the (non-empty) name and password it carries. *)
Theorem register_existing_email_conflicts {lib : Libraries} (app : App) (env : Env)
    (db : DB) (data : gmap string json) (email : string) (u : User.t) :
  truthy (dict_get data "name") = true ->
  truthy (dict_get data "password") = true ->
  dict_get data "email" = JStr email ->
  email <> "" ->
  u ∈ users db -> User.email u = email ->
  run (register app env data) db = (email_registered, db).
Proof.
  intros Hn Hp He Ne Hin Hu. unfold register.
  rewrite Hn, Hp, He, truthy_str by assumption. simpl.
  destruct (find_email_some email (users db) u Hin Hu) as (v & Hf & _).
  unfold_handler. simpl. now rewrite Hf.
Qed.

(** X2. A registration in which the name, the email or the password is
    missing, null or empty is answered 400 before any lookup and writes
    nothing. *)
Theorem register_missing_field {lib : Libraries} (app : App) (env : Env)
    (db : DB) (data : gmap string json) :
  truthy (dict_get data "name") = false
  \/ truthy (dict_get data "email") = false
  \/ truthy (dict_get data "password") = false ->
  run (register app env data) db = (missing_register_fields, db).
Proof.
  intros H. unfold register.
  assert (E : negb (truthy (dict_get data "name")) || negb (truthy (dict_get data "email"))
              || negb (truthy (dict_get data "password")) = true).
  { destruct H as [-> | [-> | ->]]; simpl; rewrite ?orb_true_r; reflexivity. }
  now rewrite E.
Qed.

(** X3. Registering twice with the same email: after a first, valid
    registration has succeeded, a second one with that email is answered
    409 and leaves the store as the first one left it, whatever name and
    password the second carries. *)
Theorem register_twice_conflicts {lib : Libraries} (app : App) (env1 env2 : Env)
    (db : DB) (data1 data2 : gmap string json) (name email password : string) :
  dict_get data1 "name" = JStr name ->
  dict_get data1 "email" = JStr email ->
  dict_get data1 "password" = JStr password ->
  name <> "" -> email <> "" -> password <> "" ->
  (forall u, u ∈ users db -> User.email u <> email) ->
  truthy (dict_get data2 "name") = true ->
  truthy (dict_get data2 "password") = true ->
  dict_get data2 "email" = JStr email ->
  let '(r1, db1) := run (register app env1 data1) db in
  status r1 = 201
  /\ run (register app env2 data2) db1 = (email_registered, db1).
Proof.
  intros Hn He Hp Nn Ne Np Hfresh Hn2 Hp2 He2.
  rewrite (register_fresh app env1 db data1 name email password) by assumption.
  split; [reflexivity|].
  unfold register. rewrite Hn2, Hp2, He2, truthy_str by assumption. simpl.
  unfold_handler. simpl.
  pose proof (find_email_new (users db)
                (User.mk (next_id (User.id <$> users db)) email
                   (generate_password_hash password (salt env1)) name) Hfresh) as Hfound.
  simpl in Hfound. now rewrite Hfound.
Qed.

(** What [register] can do to the store: nothing, or append one user
    whose email no earlier user has. *)
Lemma register_outcome {lib : Libraries} (app : App) (env : Env) (data : gmap string json)
    (db : DB) :
  exists r db', run (register app env data) db = (r, db')
    /\ ((status r <> 201 /\ db' = db)
        \/ (status r = 201 /\ exists user,
              db' = mkDB (users db ++ [user]) (tasks db)
              /\ User.id user = next_id (User.id <$> users db)
              /\ find (fun w => String.eqb (User.email w) (User.email user)) (users db) = None)).
Proof.
  unfold register.
  destruct (negb (truthy _) || negb (truthy _) || negb (truthy _));
    [eexists _, _; split; [reflexivity|left; split; [discriminate|reflexivity]]|].
  destruct (bind_text (dict_get data "email")) as [[email|]|];
    try (eexists _, _; split; [reflexivity|left; split; [discriminate|reflexivity]]).
  unfold_handler. simpl.
  destruct (find _ (users db)) as [v|] eqn:Hf;
    [eexists _, _; split; [reflexivity|left; split; [discriminate|reflexivity]]|].
  destruct (dict_get data "password") as [| | |password| |];
    try (eexists _, _; split; [reflexivity|left; split; [discriminate|reflexivity]]).
  destruct (bind_text (dict_get data "name")) as [[name|]|];
    try (eexists _, _; split; [reflexivity|left; split; [discriminate|reflexivity]]).
  eexists _, _. split; [reflexivity|]. right. split; [reflexivity|].
  eexists. split; [reflexivity|]. split; [reflexivity|]. exact Hf.
Qed.

Lemma find_email_none (email : string) (l : list User.t) :
  find (fun w => String.eqb (User.email w) email) l = None ->
  email ∉ User.email <$> l.
Proof.
  induction l as [|w l IH]; simpl; intros Hf Hin; [inversion Hin|].
  destruct (String.eqb_spec (User.email w) email) as [E|E]; [discriminate|].
  apply elem_of_cons in Hin as [Hin|Hin]; [congruence | now apply IH].
Qed.

(** X4. [register] keeps the user table well formed: if emails and ids
    were unique before a registration they are unique after it, whatever
    the request; the users already there stay as they are, at the front
    of the table, and no task is touched. *)
Theorem register_keeps_users_unique {lib : Libraries} (app : App) (env : Env)
    (data : gmap string json) (db : DB) :
  NoDup (User.email <$> users db) ->
  NoDup (User.id <$> users db) ->
  let db' := snd (run (register app env data) db) in
  NoDup (User.email <$> users db')
  /\ NoDup (User.id <$> users db')
  /\ users db `prefix_of` users db'
  /\ tasks db' = tasks db.
Proof.
  intros He Hi.
  destruct (register_outcome app env data db) as (r & db1 & -> & Hcase). simpl.
  destruct Hcase as [[_ ->]|(_ & user & -> & Hid & Hf)]; simpl.
  - repeat split; assumption || reflexivity.
  - rewrite !fmap_app. simpl. repeat split.
    + apply NoDup_app. split; [exact He|]. split; [|apply NoDup_singleton].
      intros e Hin ->%list_elem_of_singleton. now apply find_email_none in Hf.
    + apply NoDup_app. split; [exact Hi|]. split; [|apply NoDup_singleton].
      intros i Hin ->%list_elem_of_singleton. rewrite Hid in Hin.
      now apply next_id_fresh in Hin.
    + now apply prefix_app_r.
Qed.

(** X5. The token that [register] returns, which carries [str(id)],
    makes every protected route run as the user just created, as long as
    it has not expired (the token codec is assumed to decode what it
    encoded when the subject is a string). *)
Theorem register_token_runs_as_user {lib : Libraries} (app : App) (env1 env3 : Env)
    (db : DB) (data : gmap string json) (name email password : string) :
  (forall k c s, sub c = IdStr s -> jwt_decode k (jwt_encode k c) = Some c) ->
  dict_get data "name" = JStr name ->
  dict_get data "email" = JStr email ->
  dict_get data "password" = JStr password ->
  name <> "" -> email <> "" -> password <> "" ->
  (forall u, u ∈ users db -> User.email u <> email) ->
  now env3 <= now env1 + JWT_ACCESS_TOKEN_EXPIRES ->
  exists token user db',
    run (register app env1 data) db
    = (jsonify (JObj [("token", JStr token); ("user", user_to_dict user)]) 201, db')
    /\ user ∈ users db'
    /\ forall view, jwt_required app env3 (Some token) view = view (User.id user).
Proof.
  intros Hjwt Hn He Hp Nn Ne Np Hfresh Hexp.
  eexists _, _, _. split; [now apply (register_fresh app env1 db data name email password)|].
  split; [apply elem_of_app; right; now left|].
  intros view. now apply register_token_resolves.
Qed.

(** ** Login *)

(** X6. [login] answers 200, with the user's public fields and a token
    for the user's id, exactly for a user of the store with this email
    whose stored hash accepts the password; when no user of the store
    has the email, or the hash rejects the password, the answer is the
    same 401 "Invalid credentials".  Emails are unique in the store. *)
Theorem login_accepts_exactly_matching_user {lib : Libraries} (app : App) (env : Env)
    (db : DB) (data : gmap string json) (email password : string) :
  dict_get data "email" = JStr email ->
  dict_get data "password" = JStr password ->
  email <> "" -> password <> "" ->
  NoDup (User.email <$> users db) ->
  (forall u, u ∈ users db -> User.email u = email ->
     check_password_hash (User.password u) password = true ->
     run (login app env data) db
     = (jsonify (JObj [("token", JStr (create_access_token app env (IdInt (User.id u))));
                       ("user", user_to_dict u)]) 200, db))
  /\ ((forall u, u ∈ users db -> User.email u = email ->
        check_password_hash (User.password u) password = false) ->
      run (login app env data) db = (invalid_credentials, db)).
Proof.
  intros He Hp Ne Np Hnd. split.
  - intros u Hin Hu Hcheck. unfold login.
    rewrite He, Hp, !truthy_str by assumption. simpl.
    unfold_handler. simpl.
    now rewrite (find_email_unique email (users db) u Hnd Hin Hu), Hcheck.
  - intros Hwrong. unfold login.
    rewrite He, Hp, !truthy_str by assumption. simpl.
    unfold_handler. simpl.
    destruct (find _ (users db)) as [v|] eqn:Hf; [|reflexivity].
    apply find_some in Hf as [Hin Hv].
    apply list_elem_of_In in Hin. apply String.eqb_eq in Hv.
    now rewrite (Hwrong v Hin Hv).
Qed.

(** X7. [login] and [get_tasks] only read: whatever the request and its
    outcome, the store after the call is the store before it. *)
Theorem login_and_listing_write_nothing {lib : Libraries} (app : App) (env : Env)
    (data : gmap string json) (uid : Z) (args : Args) (db : DB) :
  snd (run (login app env data) db) = db
  /\ snd (run (get_tasks uid args) db) = db.
Proof.
  split.
  - unfold login.
    destruct (negb (truthy _) || negb (truthy _)); [reflexivity|].
    destruct (bind_text (dict_get data "email")) as [[email|]|]; try reflexivity.
    unfold_handler. simpl.
    destruct (find _ (users db)) as [user|]; [|reflexivity].
    destruct (dict_get data "password") as [| | |password| |]; try reflexivity.
    now destruct (negb (check_password_hash _ password)).
  - unfold get_tasks. destruct (completed_filter args); [|reflexivity].
    unfold_handler. now destruct (paginate_query _ _ _) as [[items total]|].
Qed.

(** ** Creating tasks, and what the listing then shows *)

Lemma add_new_task_text (app : App) (uid : Z) (db : DB) (data : gmap string json)
    (title : string) (description : option string) :
  dict_get data "title" = JStr title -> title <> "" ->
  bind_text (dict_get_default data "description" (JStr "")) = Some description ->
  let task := Task.mk (next_id (Task.id <$> tasks db)) uid title description false
                      (created_at_default app) (updated_at_default app) in
  run (add_new_task app uid data) db
  = (jsonify (task_to_dict task) 201, mkDB (users db) (tasks db ++ [task])).
Proof.
  intros Ht Nt Hd task. unfold add_new_task.
  rewrite Ht, truthy_str, Hd by assumption. reflexivity.
Qed.

(** X8. [add_new_task] with a non-empty string title answers 201 and
    appends exactly one task: owned by the acting user, not completed,
    with the title as given and the description as given (the empty
    string when the key is absent, NULL when it is null), under an id
    larger than every id of the table; the other rows and the users are
    left as they are. *)
Theorem add_new_task_appends_one (app : App) (uid : Z) (db : DB) (data : gmap string json)
    (title : string) (description : option string) :
  dict_get data "title" = JStr title -> title <> "" ->
  match data !! "description" with
  | None => description = Some ""
  | Some JNull => description = None
  | Some (JStr d) => description = Some d
  | Some _ => False
  end ->
  exists task,
    run (add_new_task app uid data) db
    = (jsonify (task_to_dict task) 201, mkDB (users db) (tasks db ++ [task]))
    /\ Task.owner_id task = uid
    /\ Task.title task = title
    /\ Task.description task = description
    /\ Task.completed task = false
    /\ forall t, t ∈ tasks db -> Task.id t < Task.id task.
Proof.
  intros Ht Nt Hd.
  assert (Hb : bind_text (dict_get_default data "description" (JStr "")) = Some description).
  { unfold dict_get_default. destruct (data !! "description") as [[| | |d| |]|];
      simpl; try contradiction; congruence. }
  eexists. split; [exact (add_new_task_text app uid db data title description Ht Nt Hb)|].
  simpl. repeat split.
  intros t Hin. apply next_id_above. apply list_elem_of_fmap. now exists t.
Qed.

(** X9. [add_new_task] answers 400 "Missing required field: title"
    exactly when the title is falsy (absent, null, empty string, [false],
    0, empty list or object), and whenever its answer is not 201 it has
    stored nothing. *)
Theorem add_new_task_rejects_falsy_title (app : App) (uid : Z) (data : gmap string json)
    (db : DB) :
  let '(r, db') := run (add_new_task app uid data) db in
  (truthy (dict_get data "title") = false -> r = missing_title)
  /\ (status r = 400 -> truthy (dict_get data "title") = false)
  /\ (status r <> 201 -> db' = db).
Proof.
  unfold add_new_task.
  destruct (truthy (dict_get data "title")); simpl.
  - destruct (bind_text (dict_get data "title")) as [[title|]|];
      [destruct (bind_text (dict_get_default data "description" (JStr ""))) as [d|]|..];
      unfold_handler; simpl; repeat split; try discriminate; try reflexivity.
    intros H. now contradiction H.
  - unfold_handler. repeat split.
Qed.



(** ** Updating and deleting: what is written *)

Lemma unique_id (rows : list Task.t) (x y : Task.t) :
  NoDup (Task.id <$> rows) -> x ∈ rows -> y ∈ rows -> Task.id x = Task.id y -> x = y.
Proof.
  induction rows as [|z rows IH]; intros Hnd Hx Hy Hxy; [inversion Hx|].
  simpl in Hnd. apply NoDup_cons in Hnd as [Hz Hnd].
  apply elem_of_cons in Hx as [->|Hx]; apply elem_of_cons in Hy as [->|Hy]; auto.
  - exfalso. apply Hz. rewrite Hxy. apply list_elem_of_fmap. now exists y.
  - exfalso. apply Hz. rewrite <- Hxy. apply list_elem_of_fmap. now exists x.
Qed.

Lemma find_task_some (rows : list Task.t) (task_id : Z) (task : Task.t) :
  find (fun x => Task.id x =? task_id) rows = Some task ->
  task ∈ rows /\ Task.id task = task_id.
Proof.
  intros Hf. apply find_some in Hf as [Hin Hid].
  split; [now apply list_elem_of_In | now apply Z.eqb_eq].
Qed.

Lemma filter_fmap_same {A} (P : A -> bool) (g : A -> A) (l : list A) :
  (forall t, t ∈ l -> g t = t \/ (P (g t) = false /\ P t = false)) ->
  filter P (g <$> l) = filter P l.
Proof.
  induction l as [|x l IH]; intros Hg; [reflexivity|].
  rewrite fmap_cons. destruct (Hg x) as [E|[E1 E2]]; [now left| |].
  - rewrite E. destruct (P x) eqn:Hp.
    + rewrite !filter_cons_True by now rewrite Hp.
      f_equal. apply IH. intros t Ht. apply Hg. now right.
    + rewrite !filter_cons_False by now rewrite Hp.
      apply IH. intros t Ht. apply Hg. now right.
  - rewrite !filter_cons_False by now rewrite ?E1, ?E2.
    apply IH. intros t Ht. apply Hg. now right.
Qed.

Lemma filter_filter_same {A} (P Q : A -> bool) (l : list A) :
  (forall t, t ∈ l -> Q t = false -> P t = false) ->
  filter P (filter Q l) = filter P l.
Proof.
  induction l as [|x l IH]; intros Hq; [reflexivity|].
  assert (IH' : filter P (filter Q l) = filter P l).
  { apply IH. intros t Ht. apply Hq. now right. }
  destruct (Q x) eqn:Hx.
  - rewrite (filter_cons_True (fun t => Q t)) by now rewrite Hx.
    destruct (P x) eqn:Hp.
    + rewrite !filter_cons_True by now rewrite Hp. now f_equal.
    + now rewrite !filter_cons_False by now rewrite Hp.
  - rewrite (filter_cons_False (fun t => Q t)) by now rewrite Hx.
    rewrite (filter_cons_False (fun t => P t)); [exact IH'|].
    rewrite (Hq x); [tauto | now left | exact Hx].
Qed.

Lemma replace_row_self (rows : list Task.t) (t : Task.t) :
  NoDup (Task.id <$> rows) -> t ∈ rows -> replace_row t rows = rows.
Proof.
  intros Hnd Hin. unfold replace_row.
  rewrite <- (list_fmap_id rows) at 2. apply list_fmap_ext.
  intros i x Hx. simpl.
  destruct (Z.eqb_spec (Task.id x) (Task.id t)) as [E|_]; [|reflexivity].
  symmetry. apply (unique_id rows); try assumption.
  apply list_elem_of_lookup. now exists i.
Qed.

Lemma replace_row_others (rows : list Task.t) (row x : Task.t) :
  x ∈ rows -> Task.id x <> Task.id row -> x ∈ replace_row row rows.
Proof.
  intros Hin Hne. unfold replace_row. apply list_elem_of_fmap.
  exists x. split; [|exact Hin].
  destruct (Z.eqb_spec (Task.id x) (Task.id row)); [contradiction | reflexivity].
Qed.

Lemma updated_row_keeps (app : App) (o : TaskObject) (row : Task.t) :
  updated_row app o = Some row ->
  Task.id row = Task.id (loaded o)
  /\ Task.owner_id row = Task.owner_id (loaded o)
  /\ Task.created_at row = Task.created_at (loaded o)
  /\ Task.updated_at row = updated_at_onupdate app.
Proof.
  unfold updated_row.
  destruct (match new_description o with Some _ => _ | None => _ end); [|discriminate].
  simpl. intros [= <-]. repeat split.
Qed.

(** The three ways [commit_task] ends. *)
Lemma commit_task_effect (app : App) (o : TaskObject) (db : DB) :
  commit_task app o db = (inl server_error, db)
  \/ commit_task app o db = (inr (loaded o), db)
  \/ exists row, updated_row app o = Some row
       /\ commit_task app o db = (inr row, mkDB (users db) (replace_row row (tasks db))).
Proof.
  unfold commit_task.
  destruct (title_changed o || description_changed o || completed_changed o).
  - destruct (updated_row app o) as [row|]; [|now left].
    right. right. exists row. split; reflexivity.
  - right. now left.
Qed.

(** What [update_task] can do to the store: nothing, or replace the row
    of the task it found, owned by the acting user, by a row with the
    same id, owner and creation time. *)
Lemma update_task_effect (app : App) (u task_id : Z) (data : gmap string json) (db : DB) :
  exists r db', run (update_task app u task_id data) db = (r, db')
    /\ (db' = db
        \/ exists task row,
             find (fun x => Task.id x =? task_id) (tasks db) = Some task
             /\ Task.owner_id task = u
             /\ Task.id row = Task.id task
             /\ Task.owner_id row = Task.owner_id task
             /\ Task.created_at row = Task.created_at task
             /\ db' = mkDB (users db) (replace_row row (tasks db))).
Proof.
  unfold update_task, run, task_by_id, bind, ret, respond, read_db.
  destruct (find _ (tasks db)) as [task|] eqn:Hf;
    [|destruct (sqlite_int task_id); (eexists _, _; split; [reflexivity|now left])].
  destruct (negb (Task.owner_id task =? u)) eqn:Ho;
    [eexists _, _; split; [reflexivity|now left]|].
  apply negb_false_iff, Z.eqb_eq in Ho.
  case_patch; try (eexists _, _; split; [reflexivity|now left]).
  all: match goal with |- context [commit_task ?a ?o ?d] =>
         destruct (commit_task_effect a o d) as [-> | [-> | (row & Hrow & ->)]] end.
  all: try (eexists _, _; split; [reflexivity|now left]).
  all: apply updated_row_keeps in Hrow as (H1 & H2 & H3 & _); simpl in H1, H2, H3.
  all: eexists _, _; split; [reflexivity|right; exists task, row; repeat split; assumption].
Qed.

Lemma delete_task_effect (u task_id : Z) (db : DB) :
  exists r db', run (delete_task u task_id) db = (r, db')
    /\ ((db' = db /\ status r <> 204)
        \/ exists task,
             find (fun x => Task.id x =? task_id) (tasks db) = Some task
             /\ Task.owner_id task = u
             /\ r = mkResponse EmptyBody 204
             /\ db' = mkDB (users db)
                        (filter (fun t => negb (Task.id t =? Task.id task)) (tasks db))).
Proof.
  unfold delete_task. unfold_handler. simpl.
  destruct (find _ (tasks db)) as [task|] eqn:Hf;
    [|destruct (sqlite_int task_id);
      (eexists _, _; split; [reflexivity|left; split; [reflexivity|discriminate]])].
  destruct (Z.eqb_spec (Task.owner_id task) u) as [Ho|Ho]; simpl.
  - eexists _, _. split; [reflexivity|]. right. exists task. repeat split. exact Ho.
  - eexists _, _. split; [reflexivity|]. left. split; [reflexivity|discriminate].
Qed.

Lemma add_new_task_effect (app : App) (u : Z) (data : gmap string json) (db : DB) :
  exists r db', run (add_new_task app u data) db = (r, db')
    /\ (db' = db
        \/ exists task, Task.owner_id task = u
             /\ Task.id task = next_id (Task.id <$> tasks db)
             /\ db' = mkDB (users db) (tasks db ++ [task])).
Proof.
  unfold add_new_task.
  destruct (negb (truthy (dict_get data "title")));
    [eexists _, _; split; [reflexivity|now left]|].
  destruct (bind_text (dict_get data "title")) as [[title|]|];
    try (eexists _, _; split; [reflexivity|now left]).
  destruct (bind_text (dict_get_default data "description" (JStr ""))) as [d|];
    [|eexists _, _; split; [reflexivity|now left]].
  eexists _, _. split; [reflexivity|]. right.
  eexists (Task.mk _ _ _ _ _ _ _). repeat split.
Qed.

Lemma listing_reads_own_rows (uid : Z) (args : Args) (db1 db2 : DB) :
  filter (fun t => Task.owner_id t =? uid) (tasks db1)
  = filter (fun t => Task.owner_id t =? uid) (tasks db2) ->
  fst (run (get_tasks uid args) db1) = fst (run (get_tasks uid args) db2).
Proof.
  intros Hrows. unfold get_tasks.
  destruct (completed_filter args) as [c|]; [|reflexivity].
  unfold_handler. simpl. unfold selected. rewrite Hrows.
  now destruct (paginate_query _ _ _) as [[items total]|].
Qed.

(** X11. Isolation.  In a store with unique task ids, whatever a user
    does through [add_new_task], [update_task] or [delete_task] leaves
    the user table and every other user's tasks as they were, rows and
    order, so every listing by another user is answered as before. *)
Theorem task_routes_leave_other_users (app : App) (u other task_id : Z)
    (data : gmap string json) (args : Args) (db db' : DB) :
  NoDup (Task.id <$> tasks db) ->
  other <> u ->
  db' = snd (run (add_new_task app u data) db)
  \/ db' = snd (run (update_task app u task_id data) db)
  \/ db' = snd (run (delete_task u task_id) db) ->
  users db' = users db
  /\ filter (fun t => Task.owner_id t =? other) (tasks db')
     = filter (fun t => Task.owner_id t =? other) (tasks db)
  /\ fst (run (get_tasks other args) db') = fst (run (get_tasks other args) db).
Proof.
  intros Hnd Hne Hop.
  assert (Hrows : users db' = users db
                  /\ filter (fun t => Task.owner_id t =? other) (tasks db')
                     = filter (fun t => Task.owner_id t =? other) (tasks db)).
  { destruct Hop as [-> | [-> | ->]].
    - destruct (add_new_task_effect app u data db) as (r & db1 & -> & Hcase). simpl.
      destruct Hcase as [-> | (task & Ho & _ & ->)]; [now split|]. simpl.
      split; [reflexivity|].
      rewrite filter_app, filter_cons_False, filter_nil, app_nil_r; [reflexivity|].
      rewrite Ho. destruct (Z.eqb_spec u other); [congruence | tauto].
    - destruct (update_task_effect app u task_id data db) as (r & db1 & -> & Hcase). simpl.
      destruct Hcase as [-> | (task & row & Hf & Ho & Hid & Hor & _ & ->)]; [now split|].
      simpl. split; [reflexivity|].
      apply find_task_some in Hf as [Hin _].
      apply (filter_fmap_same (fun t => Task.owner_id t =? other)).
      intros t Ht.
      destruct (Z.eqb_spec (Task.id t) (Task.id row)) as [E|_]; [|now left].
      right. assert (t = task) as -> by (apply (unique_id (tasks db)); congruence).
      rewrite Hor, Ho. split; apply Z.eqb_neq; congruence.
    - destruct (delete_task_effect u task_id db) as (r & db1 & -> & Hcase). simpl.
      destruct Hcase as [[-> _] | (task & Hf & Ho & _ & ->)]; [now split|].
      simpl. split; [reflexivity|].
      apply find_task_some in Hf as [Hin _].
      apply (filter_filter_same (fun t => Task.owner_id t =? other)
               (fun t => negb (Task.id t =? Task.id task))).
      intros t Ht Hq. apply negb_false_iff, Z.eqb_eq in Hq.
      assert (t = task) as -> by (apply (unique_id (tasks db)); assumption).
      apply Z.eqb_neq. congruence. }
  destruct Hrows as [Hu Hr]. repeat split; try assumption.
  now apply listing_reads_own_rows.
Qed.

(** X12. A successful [delete_task] by the owner answers 204 with an
    empty body and removes that task and nothing else; afterwards the
    same id is unknown: deleting or updating it again is answered 404
    (the id of a stored row is a 64-bit integer; for an id that is not,
    the lookup itself fails and the answer is 500).  Task ids are unique
    in the store. *)
Theorem delete_task_removes_exactly (app : App) (u : Z) (db : DB) (t : Task.t)
    (data : gmap string json) :
  NoDup (Task.id <$> tasks db) ->
  t ∈ tasks db ->
  Task.owner_id t = u ->
  exists db',
    run (delete_task u (Task.id t)) db = (mkResponse EmptyBody 204, db')
    /\ users db' = users db
    /\ (forall x, x ∈ tasks db' <-> x ∈ tasks db /\ x <> t)
    /\ tasks db' `sublist_of` tasks db
    /\ (let unknown := if sqlite_int (Task.id t) then task_not_found else server_error in
        run (delete_task u (Task.id t)) db' = (unknown, db')
        /\ run (update_task app u (Task.id t) data) db' = (unknown, db')).
Proof.
  intros Hnd Hin Ho.
  pose proof (find_task_present _ _ Hnd Hin) as Hfind.
  eexists. split.
  { unfold delete_task. unfold_handler. simpl.
    rewrite Hfind, Ho, Z.eqb_refl. reflexivity. }
  simpl.
  assert (Hmem : forall x, x ∈ filter (fun y => negb (Task.id y =? Task.id t)) (tasks db)
                           <-> x ∈ tasks db /\ x <> t).
  { intros x. rewrite list_elem_of_filter. split.
    - intros [Hx Hxin]. split; [exact Hxin|]. intros ->.
      now rewrite Z.eqb_refl in Hx.
    - intros [Hxin Hx]. split; [|exact Hxin].
      destruct (Z.eqb_spec (Task.id x) (Task.id t)) as [E|_]; [|exact I].
      exfalso. apply Hx. now apply (unique_id (tasks db)). }
  assert (Habs : find (fun x => Task.id x =? Task.id t)
                   (filter (fun y => negb (Task.id y =? Task.id t)) (tasks db)) = None).
  { apply find_task_absent. intros x Hx E.
    apply list_elem_of_filter in Hx as [Hx _]. apply Z.eqb_eq in E. now rewrite E in Hx. }
  split; [reflexivity|]. split; [exact Hmem|]. split; [apply sublist_filter|].
  unfold delete_task, update_task. unfold_handler. simpl.
  rewrite Habs. destruct (sqlite_int (Task.id t)); split; reflexivity.
Qed.

(** The row [commit_task] leaves for an object whose new description, if
    any, is a string. *)
Lemma commit_task_fields (app : App) (o : TaskObject) (db : DB) :
  match new_description o with Some v => exists d, v = JStr d | None => True end ->
  exists row db', commit_task app o db = (inr row, db')
    /\ Task.id row = Task.id (loaded o)
    /\ Task.owner_id row = Task.owner_id (loaded o)
    /\ Task.created_at row = Task.created_at (loaded o)
    /\ Task.title row = default (Task.title (loaded o)) (new_title o)
    /\ Task.completed row = default (Task.completed (loaded o)) (new_completed o)
    /\ Task.description row
       = match new_description o with
         | Some (JStr d) => Some d
         | _ => Task.description (loaded o)
         end
    /\ if title_changed o || description_changed o || completed_changed o
       then Task.updated_at row = updated_at_onupdate app
            /\ db' = mkDB (users db) (replace_row row (tasks db))
       else row = loaded o /\ db' = db.
Proof.
  intros Hd. unfold commit_task.
  destruct (title_changed o || description_changed o || completed_changed o) eqn:Hch.
  - unfold updated_row.
    destruct (new_description o) as [v|] eqn:Hv.
    + destruct Hd as [d ->].
      assert (Hdesc : (if description_changed o then bind_text (JStr d)
                       else Some (Task.description (loaded o))) = Some (Some d)).
      { unfold description_changed. rewrite Hv.
        destruct (Task.description (loaded o)) as [s0|]; [|reflexivity].
        destruct (String.eqb_spec d s0) as [->|_]; reflexivity. }
      rewrite Hdesc. unfold_handler. simpl.
      eexists _, _. split; [reflexivity|]. simpl. repeat split.
    + unfold_handler. simpl. eexists _, _. split; [reflexivity|]. simpl. repeat split.
  - apply orb_false_iff in Hch as [Hch Hc]. apply orb_false_iff in Hch as [Ht Hds].
    unfold_handler. eexists _, _. split; [reflexivity|]. repeat split.
    + unfold title_changed in Ht. destruct (new_title o) as [s|]; [|reflexivity].
      apply negb_false_iff, String.eqb_eq in Ht. simpl. congruence.
    + unfold completed_changed in Hc. destruct (new_completed o) as [b|]; [|reflexivity].
      apply negb_false_iff in Hc. apply Bool.eqb_prop in Hc. simpl. congruence.
    + unfold description_changed in Hds.
      destruct (new_description o) as [v|]; [|reflexivity].
      destruct Hd as [d ->].
      destruct (Task.description (loaded o)) as [s0|]; [|discriminate].
      apply negb_false_iff, String.eqb_eq in Hds. congruence.
Qed.

(** X13. How a valid patch is applied.  For a task of the store owned by
    the acting user and a patch in which the title, if given, is a string
    that is not blank, the description, if given, a string, and
    [completed], if given, a boolean, [update_task] answers 200 with the
    row it leaves: the title is the given one stripped, description and
    [completed] are the given ones, a field the patch does not give (or
    gives as null) keeps its value, and id, owner and creation time
    never change; [updated_at] is the old value or the [onupdate] value
    of the column; every other row of the store is kept. *)
Theorem update_task_applies_patch (app : App) (u : Z) (db : DB) (t : Task.t)
    (data : gmap string json) (title' : string) (description' : option string)
    (completed' : bool) :
  NoDup (Task.id <$> tasks db) ->
  t ∈ tasks db ->
  Task.owner_id t = u ->
  match dict_get data "title" with
  | JNull => title' = Task.title t
  | JStr s => strip s <> "" /\ title' = strip s
  | _ => False
  end ->
  match dict_get data "description" with
  | JNull => description' = Task.description t
  | JStr d => description' = Some d
  | _ => False
  end ->
  match dict_get data "completed" with
  | JNull => completed' = Task.completed t
  | JBool b => completed' = b
  | _ => False
  end ->
  exists row,
    run (update_task app u (Task.id t) data) db
    = (jsonify (task_to_dict row) 200, mkDB (users db) (replace_row row (tasks db)))
    /\ Task.id row = Task.id t
    /\ Task.owner_id row = Task.owner_id t
    /\ Task.created_at row = Task.created_at t
    /\ Task.title row = title'
    /\ Task.description row = description'
    /\ Task.completed row = completed'
    /\ (Task.updated_at row = Task.updated_at t
        \/ Task.updated_at row = updated_at_onupdate app)
    /\ forall x, x ∈ tasks db -> x <> t -> x ∈ replace_row row (tasks db).
Proof.
  intros Hnd Hin Ho Ht Hd Hc.
  pose proof (find_task_present _ _ Hnd Hin) as Hfind.
  assert (Hown : negb (Task.owner_id t =? u) = false)
    by (apply negb_false_iff, Z.eqb_eq; exact Ho).
  unfold update_task, run, task_by_id, bind, ret, respond, read_db.
  rewrite Hfind, Hown.
  destruct (dict_get data "title") as [| | |s| |]; try contradiction;
    destruct (dict_get data "description") as [| | |d| |]; try contradiction;
    destruct (dict_get data "completed") as [|b| | | |]; try contradiction.
  all: cbn [is_not_none].
  all: try match type of Ht with
           | _ /\ _ => destruct Ht as [Hs Ht];
                       destruct (String.eqb_spec (strip s) ""); [contradiction|]
           end.
  all: match goal with |- context [commit_task ?a ?o ?d] =>
         destruct (commit_task_fields a o d)
           as (row & db' & -> & Hid & Hor & Hcr & Hti & Hco & Hde & Hup);
           [simpl; eauto|] end.
  all: simpl in Hid, Hor, Hcr, Hti, Hco, Hde.
  all: exists row.
  all: assert (Hdb : db' = mkDB (users db) (replace_row row (tasks db))
                     /\ (Task.updated_at row = Task.updated_at t
                         \/ Task.updated_at row = updated_at_onupdate app));
    [ destruct (_ || _ || _) in Hup;
        [ destruct Hup as [Hu ->]; split; [reflexivity | now right]
        | destruct Hup as [-> ->]; simpl; split; [|now left];
          rewrite replace_row_self by assumption; now destruct db ]
    | destruct Hdb as [-> Hupd] ].
  all: split; [reflexivity|].
  all: repeat split; try congruence.
  all: intros x Hx Hne; apply replace_row_others; [exact Hx|];
    rewrite Hid; intros E; apply Hne; now apply (unique_id (tasks db)).
Qed.

(** X14. A patch that changes nothing writes nothing.  For a task of the
    store owned by the acting user, a patch that names no field (or only
    nulls), or whose title strips to the stored title, whose description
    is the stored one and whose [completed] is the stored one, is
    answered 200 with the task as it is, and the store, [updated_at]
    included, is left untouched. *)
Theorem update_task_without_change (app : App) (u : Z) (db : DB) (t : Task.t)
    (data : gmap string json) :
  NoDup (Task.id <$> tasks db) ->
  t ∈ tasks db ->
  Task.owner_id t = u ->
  match dict_get data "title" with
  | JNull => True
  | JStr s => strip s <> "" /\ strip s = Task.title t
  | _ => False
  end ->
  match dict_get data "description" with
  | JNull => True
  | JStr d => Task.description t = Some d
  | _ => False
  end ->
  match dict_get data "completed" with
  | JNull => True
  | JBool b => b = Task.completed t
  | _ => False
  end ->
  run (update_task app u (Task.id t) data) db = (jsonify (task_to_dict t) 200, db).
Proof.
  intros Hnd Hin Ho Ht Hd Hc.
  pose proof (find_task_present _ _ Hnd Hin) as Hfind.
  assert (Hown : negb (Task.owner_id t =? u) = false)
    by (apply negb_false_iff, Z.eqb_eq; exact Ho).
  unfold update_task, run, task_by_id, bind, ret, respond, read_db.
  rewrite Hfind, Hown.
  destruct (dict_get data "title") as [| | |s| |]; try contradiction;
    destruct (dict_get data "description") as [| | |d| |]; try contradiction;
    destruct (dict_get data "completed") as [|b| | | |]; try contradiction.
  all: cbn [is_not_none].
  all: try match type of Ht with
           | _ /\ _ => destruct Ht as [Hs Ht];
                       destruct (String.eqb_spec (strip s) ""); [contradiction|]
           end.
  all: unfold commit_task, title_changed, description_changed, completed_changed; simpl.
  all: rewrite ?Ht, ?Hd, <- ?Hc, ?String.eqb_refl, ?Bool.eqb_reflx; reflexivity.
Qed.

(** X15. Validation of a patch.  For a task of the store owned by the
    acting user, [update_task] answers 400 exactly when the title is
    given and is not a string or is blank once stripped, or [completed]
    is given and is not a boolean; a bad title is reported as "Invalid
    title" whatever else the patch holds, a bad [completed] after a good
    or absent title as "completed must be boolean". *)
Theorem update_task_validation (app : App) (u : Z) (db : DB) (t : Task.t)
    (data : gmap string json) :
  NoDup (Task.id <$> tasks db) ->
  t ∈ tasks db ->
  Task.owner_id t = u ->
  let bad_title := match dict_get data "title" with
                   | JNull => False
                   | JStr s => strip s = ""
                   | _ => True
                   end in
  let bad_completed := match dict_get data "completed" with
                       | JNull | JBool _ => False
                       | _ => True
                       end in
  let r := fst (run (update_task app u (Task.id t) data) db) in
  (bad_title -> r = invalid_title)
  /\ (~ bad_title -> bad_completed -> r = completed_not_boolean)
  /\ (status r = 400 -> bad_title \/ bad_completed).
Proof.
  intros Hnd Hin Ho bad_title bad_completed r.
  pose proof (find_task_present _ _ Hnd Hin) as Hfind.
  assert (Hown : negb (Task.owner_id t =? u) = false)
    by (apply negb_false_iff, Z.eqb_eq; exact Ho).
  unfold r, bad_title, bad_completed.
  unfold update_task, run, task_by_id, bind, ret, respond, read_db.
  rewrite Hfind, Hown.
  destruct (dict_get data "title") as [| | |s| |]; cbn [is_not_none];
    try (repeat split; simpl; tauto).
  all: try destruct (String.eqb_spec (strip s) ""); try (repeat split; simpl; tauto).
  all: destruct (is_not_none (dict_get data "description")).
  all: destruct (dict_get data "completed") as [|b| | | |]; cbn [is_not_none];
    try (repeat split; simpl; tauto).
  all: match goal with |- context [commit_task ?a ?o ?d] =>
         destruct (commit_task_outcome a o d) as [(row & db1 & -> & _)| ->] end.
  all: simpl; repeat split; try tauto; discriminate.
Qed.

(** ** Listing: scope, bounds and order *)



Lemma leb_total (a b : string) : String.leb a b = true \/ String.leb b a = true.
Proof.
  unfold String.leb. rewrite (String.compare_antisym a b).
  destruct (String.compare b a); simpl; auto.
Qed.

Lemma ordering_total (args : Args) (a b : Task.t) :
  ordering args a b = true \/ ordering args b a = true.
Proof.
  unfold ordering, desc, asc, sort_col.
  destruct (String.eqb (lower _) "desc");
    destruct (String.eqb _ "title"); try apply leb_total;
    destruct (String.eqb _ "updated_at");
    rewrite !Z.leb_le; lia.
Qed.

Section InsertionSort.
Variable le : Task.t -> Task.t -> bool.
Hypothesis le_total : forall a b, le a b = true \/ le b a = true.

Let R (a b : Task.t) : Prop := le a b = true.

Lemma insert_by_hd (x y : Task.t) (l : list Task.t) :
  R y x -> HdRel R y l -> HdRel R y (insert_by le x l).
Proof.
  intros Hyx Hl. destruct l as [|z l]; simpl; [now constructor|].
  destruct (le x z); constructor; [exact Hyx|]. now inversion Hl.
Qed.

Lemma insert_by_sorted (x : Task.t) (l : list Task.t) :
  Sorted R l -> Sorted R (insert_by le x l).
Proof.
  induction l as [|y l IH]; intros Hs; simpl.
  - repeat constructor.
  - destruct (le x y) eqn:Hxy.
    + constructor; [exact Hs | now constructor].
    + apply Sorted_inv in Hs as [Hs Hhd].
      constructor; [now apply IH|].
      apply insert_by_hd; [|exact Hhd].
      destruct (le_total x y) as [E|E]; [congruence | exact E].
Qed.

Lemma order_by_sorted (l : list Task.t) : Sorted R (order_by le l).
Proof.
  induction l as [|x l IH]; simpl; [constructor | now apply insert_by_sorted].
Qed.
End InsertionSort.

Lemma Sorted_drop {A} (R : A -> A -> Prop) (n : nat) (l : list A) :
  Sorted R l -> Sorted R (drop n l).
Proof.
  revert l. induction n as [|n IH]; intros l Hs; [exact Hs|].
  destruct l as [|x l]; [constructor|]. simpl. apply IH. now apply Sorted_inv in Hs.
Qed.

Lemma Sorted_take {A} (R : A -> A -> Prop) (n : nat) (l : list A) :
  Sorted R l -> Sorted R (take n l).
Proof.
  revert l. induction n as [|n IH]; intros l Hs; [constructor|].
  destruct l as [|x l]; [constructor|]. simpl.
  apply Sorted_inv in Hs as [Hs Hhd]. constructor; [now apply IH|].
  destruct l as [|y l]; [destruct n; constructor|].
  destruct n; simpl; constructor. now inversion Hhd.
Qed.

(** X18. The items of every 200 answer of [get_tasks] come in the order
    the request chose: each item is followed by one that the chosen
    column and direction place after it or level with it.  With neither
    [sort] nor [order] given that is newest first: creation times never
    increase along the page. *)
Theorem listing_in_order (uid : Z) (args : Args) (db db' : DB) (r : Response) :
  run (get_tasks uid args) db = (r, db') ->
  status r = 200 ->
  exists items total,
    r = listing items (normal_page args) (normal_limit args) total
    /\ Sorted (fun a b => ordering args a b = true) items
    /\ (arg_sort args = None -> arg_order args = None ->
        Sorted (fun a b => Task.created_at b <= Task.created_at a) items).
Proof.
  intros Hrun H200.
  destruct (completed_filter args) as [c|] eqn:Hc.
  2:{ unfold get_tasks in Hrun. rewrite Hc in Hrun. unfold_handler.
      injection Hrun as <- _. discriminate. }
  rewrite (get_tasks_answer uid args db c Hc) in Hrun. cbv zeta in Hrun.
  destruct (sqlite_int _); [|injection Hrun as <- _; discriminate].
  injection Hrun as <- _. clear H200.
  eexists _, _. split; [reflexivity|].
  assert (Hs : Sorted (fun a b => ordering args a b = true)
                 (take (Z.to_nat (normal_limit args))
                    (drop (Z.to_nat ((normal_page args - 1) * normal_limit args))
                       (selected uid c args (tasks db))))).
  { apply Sorted_take, Sorted_drop. unfold selected.
    apply order_by_sorted, ordering_total. }
  split; [exact Hs|].
  intros Hsort Horder. revert Hs. unfold ordering. rewrite Hsort, Horder. simpl.
  apply Sorted_ind; [constructor|].
  intros a l _ IH Hhd. constructor; [exact IH|].
  destruct Hhd as [|b l Hab]; constructor.
  unfold desc, sort_col in Hab. simpl in Hab. now apply Z.leb_le in Hab.
Qed.

(** X19. Fallbacks of [sort] and [order].  A [sort] value that is none
    of "created_at", "title", "updated_at" is answered exactly as a
    request without [sort], which sorts by "created_at"; an [order]
    whose lower-case form is not "desc" is answered as "asc", and one
    whose lower-case form is "desc" as a request without [order]. *)
Theorem sort_and_order_fallbacks (uid : Z) (args : Args) (db : DB) :
  (forall s, s <> "created_at" -> s <> "title" -> s <> "updated_at" ->
     run (get_tasks uid (with_sort (Some s) args)) db
     = run (get_tasks uid (with_sort None args)) db)
  /\ run (get_tasks uid (with_sort (Some "created_at") args)) db
     = run (get_tasks uid (with_sort None args)) db
  /\ (forall o, lower o <> "desc" ->
     run (get_tasks uid (with_order (Some o) args)) db
     = run (get_tasks uid (with_order (Some "asc") args)) db)
  /\ (forall o, lower o = "desc" ->
     run (get_tasks uid (with_order (Some o) args)) db
     = run (get_tasks uid (with_order None args)) db).
Proof.
  split; [|split; [reflexivity|split]].
  - intros s H1 H2 H3. unfold get_tasks, selected, ordering. simpl.
    destruct (String.eqb_spec s "created_at"); [contradiction|].
    destruct (String.eqb_spec s "title"); [contradiction|].
    destruct (String.eqb_spec s "updated_at"); [contradiction|].
    reflexivity.
  - intros o Ho. unfold get_tasks, selected, ordering. simpl.
    destruct (String.eqb_spec (lower o) "desc"); [contradiction|]. reflexivity.
  - intros o Ho. unfold get_tasks, selected, ordering. simpl.
    now rewrite Ho.
Qed.

(** ** Listing: what the search matches *)









(** ** The further properties at concrete requests *)

Lemma register_existing_email_conflicts_witness :
  run (register (lib := Reference.libraries) Reference.app ref_env eve) one_user
  = (email_registered, one_user).
Proof.
  apply (register_existing_email_conflicts (lib := Reference.libraries) Reference.app
           ref_env one_user eve "alice@example.com" alice_row).
  - reflexivity.
  - reflexivity.
  - reflexivity.
  - discriminate.
  - left.
  - reflexivity.
Defined.

Lemma register_missing_field_witness :
  run (register (lib := Reference.libraries) Reference.app ref_env
         {[ "name" := JStr "Bob"; "email" := JStr "" ]}) one_user
  = (missing_register_fields, one_user).
Proof.
  apply (register_missing_field (lib := Reference.libraries)).
  right. left. reflexivity.
Defined.

Lemma register_twice_conflicts_witness :
  let '(r1, db1) := run (register (lib := Reference.libraries) Reference.app ref_env alice)
                        (mkDB [] []) in
  status r1 = 201
  /\ run (register (lib := Reference.libraries) Reference.app ref_env eve) db1
     = (email_registered, db1).
Proof.
  apply (register_twice_conflicts (lib := Reference.libraries) Reference.app ref_env ref_env
           (mkDB [] []) alice eve "Alice" "alice@example.com" "secret123").
  - reflexivity.
  - reflexivity.
  - reflexivity.
  - discriminate.
  - discriminate.
  - discriminate.
  - intros u Hu. inversion Hu.
  - reflexivity.
  - reflexivity.
  - reflexivity.
Defined.

Lemma register_keeps_users_unique_witness :
  let db' := snd (run (register (lib := Reference.libraries) Reference.app ref_env
                         {[ "name" := JStr "Bob"; "email" := JStr "bob@example.com";
                            "password" := JStr "1234" ]}) one_user) in
  NoDup (User.email <$> users db')
  /\ NoDup (User.id <$> users db')
  /\ users one_user `prefix_of` users db'
  /\ tasks db' = tasks one_user.
Proof.
  apply (register_keeps_users_unique (lib := Reference.libraries)).
  - apply NoDup_singleton.
  - apply NoDup_singleton.
Defined.

Lemma register_token_runs_as_user_witness :
  exists token user db',
    run (register (lib := Reference.libraries) Reference.app ref_env alice) (mkDB [] [])
    = (jsonify (JObj [("token", JStr token); ("user", user_to_dict user)]) 201, db')
    /\ user ∈ users db'
    /\ forall view,
         jwt_required (lib := Reference.libraries) Reference.app (mkEnv 3700 "")
           (Some token) view
         = view (User.id user).
Proof.
  apply (register_token_runs_as_user (lib := Reference.libraries) Reference.app ref_env
           (mkEnv 3700 "") (mkDB [] []) alice "Alice" "alice@example.com" "secret123").
  - exact reference_decode_encode.
  - reflexivity.
  - reflexivity.
  - reflexivity.
  - discriminate.
  - discriminate.
  - discriminate.
  - intros u Hu. inversion Hu.
  - vm_compute. discriminate.
Defined.

Lemma login_accepts_exactly_matching_user_witness :
  run (login (lib := Reference.libraries) Reference.app ref_env alice) two_users
  = (jsonify (JObj [("token", JStr "secret100.3700.i1");
                    ("user", user_to_dict alice_row)]) 200, two_users)
  /\ run (login (lib := Reference.libraries) Reference.app ref_env eve) two_users
     = (invalid_credentials, two_users).
Proof.
  destruct (login_accepts_exactly_matching_user (lib := Reference.libraries) Reference.app
              ref_env two_users alice "alice@example.com" "secret123") as [Hok _];
    [reflexivity | reflexivity | discriminate | discriminate
    | apply (bool_decide_unpack _); vm_compute; exact I |].
  destruct (login_accepts_exactly_matching_user (lib := Reference.libraries) Reference.app
              ref_env two_users eve "alice@example.com" "another") as [_ Hbad];
    [reflexivity | reflexivity | discriminate | discriminate
    | apply (bool_decide_unpack _); vm_compute; exact I |].
  split.
  - apply (Hok alice_row); [left | reflexivity | reflexivity].
  - apply Hbad. intros u Hu He.
    apply elem_of_cons in Hu as [->|Hu]; [reflexivity|].
    apply list_elem_of_singleton in Hu as ->. discriminate.
Defined.

Lemma add_new_task_appends_one_witness :
  exists task,
    run (add_new_task Reference.app 2 {[ "title" := JStr "Iron"; "description" := JNull ]})
        two_users
    = (jsonify (task_to_dict task) 201, mkDB (users two_users) (tasks two_users ++ [task]))
    /\ Task.owner_id task = 2
    /\ Task.title task = "Iron"
    /\ Task.description task = None
    /\ Task.completed task = false
    /\ forall t, t ∈ tasks two_users -> Task.id t < Task.id task.
Proof.
  apply (add_new_task_appends_one Reference.app 2 two_users
           {[ "title" := JStr "Iron"; "description" := JNull ]} "Iron" None).
  - reflexivity.
  - discriminate.
  - reflexivity.
Defined.

Lemma add_new_task_rejects_falsy_title_witness :
  run (add_new_task Reference.app 1 {[ "title" := JStr ""; "description" := JStr "x" ]})
      one_user
  = (missing_title, one_user).
Proof.
  pose proof (add_new_task_rejects_falsy_title Reference.app 1
                {[ "title" := JStr ""; "description" := JStr "x" ]} one_user) as W.
  destruct (run _ one_user) as [r db'].
  destruct W as (Hr & _ & Hdb).
  rewrite (Hr eq_refl) in *. f_equal. apply Hdb. discriminate.
Defined.


Lemma task_routes_leave_other_users_witness :
  let db' := snd (run (delete_task 1 2) two_users) in
  users db' = users two_users
  /\ filter (fun t => Task.owner_id t =? 2) (tasks db') = [laundry]
  /\ fst (run (get_tasks 2 no_args) db') = fst (run (get_tasks 2 no_args) two_users).
Proof.
  apply (task_routes_leave_other_users Reference.app 1 2 2 ∅ no_args two_users).
  - apply (bool_decide_unpack _). vm_compute. exact I.
  - discriminate.
  - right. right. reflexivity.
Defined.

Lemma delete_task_removes_exactly_witness :
  exists db',
    run (delete_task 1 (Task.id eggs)) two_users = (mkResponse EmptyBody 204, db')
    /\ users db' = users two_users
    /\ (forall x, x ∈ tasks db' <-> x ∈ tasks two_users /\ x <> eggs)
    /\ tasks db' `sublist_of` tasks two_users
    /\ run (delete_task 1 (Task.id eggs)) db' = (task_not_found, db')
    /\ run (update_task Reference.app 1 (Task.id eggs) {[ "completed" := JBool false ]}) db'
       = (task_not_found, db').
Proof.
  apply (delete_task_removes_exactly Reference.app 1 two_users eggs
           {[ "completed" := JBool false ]}).
  - apply (bool_decide_unpack _). vm_compute. exact I.
  - right. left.
  - reflexivity.
Defined.

Lemma update_task_applies_patch_witness :
  exists row,
    run (update_task Reference.app 1 (Task.id milk)
           {[ "title" := JStr (no_break_space ++ " Buy oat milk ");
              "completed" := JBool true ]}) two_users
    = (jsonify (task_to_dict row) 200,
       mkDB (users two_users) (replace_row row (tasks two_users)))
    /\ Task.id row = Task.id milk
    /\ Task.owner_id row = Task.owner_id milk
    /\ Task.created_at row = Task.created_at milk
    /\ Task.title row = "Buy oat milk"
    /\ Task.description row = Some "2 liters"
    /\ Task.completed row = true
    /\ (Task.updated_at row = Task.updated_at milk
        \/ Task.updated_at row = updated_at_onupdate Reference.app)
    /\ forall x, x ∈ tasks two_users -> x <> milk -> x ∈ replace_row row (tasks two_users).
Proof.
  apply (update_task_applies_patch Reference.app 1 two_users milk
           {[ "title" := JStr (no_break_space ++ " Buy oat milk ");
              "completed" := JBool true ]}).
  - apply (bool_decide_unpack _). vm_compute. exact I.
  - left.
  - reflexivity.
  - split; [vm_compute; discriminate | reflexivity].
  - reflexivity.
  - reflexivity.
Defined.

Lemma update_task_without_change_witness :
  run (update_task Reference.app 1 (Task.id milk)
         {[ "title" := JStr (" Buy milk" ++ no_break_space); "completed" := JBool false ]})
      two_users
  = (jsonify (task_to_dict milk) 200, two_users)
  /\ run (update_task Reference.app 1 (Task.id milk) ∅) two_users
     = (jsonify (task_to_dict milk) 200, two_users).
Proof.
  split.
  - apply (update_task_without_change Reference.app 1 two_users milk).
    + apply (bool_decide_unpack _). vm_compute. exact I.
    + left.
    + reflexivity.
    + split; [vm_compute; discriminate | reflexivity].
    + exact I.
    + reflexivity.
  - apply (update_task_without_change Reference.app 1 two_users milk).
    + apply (bool_decide_unpack _). vm_compute. exact I.
    + left.
    + reflexivity.
    + exact I.
    + exact I.
    + exact I.
Defined.

Lemma update_task_validation_witness :
  fst (run (update_task Reference.app 1 (Task.id milk)
              {[ "title" := JInt 7; "completed" := JStr "yes" ]}) two_users)
  = invalid_title
  /\ fst (run (update_task Reference.app 1 (Task.id milk)
                 {[ "title" := JStr no_break_space ]}) two_users)
     = invalid_title
  /\ fst (run (update_task Reference.app 1 (Task.id milk)
                 {[ "title" := JStr "Milk"; "completed" := JStr "yes" ]}) two_users)
     = completed_not_boolean.
Proof.
  assert (Hnd : NoDup (Task.id <$> tasks two_users))
    by (apply (bool_decide_unpack _); vm_compute; exact I).
  split; [|split].
  - destruct (update_task_validation Reference.app 1 two_users milk
                {[ "title" := JInt 7; "completed" := JStr "yes" ]} Hnd) as (Ht & _);
      [left | reflexivity|].
    apply Ht. exact I.
  - destruct (update_task_validation Reference.app 1 two_users milk
                {[ "title" := JStr no_break_space ]} Hnd) as (Ht & _);
      [left | reflexivity|].
    apply Ht. reflexivity.
  - destruct (update_task_validation Reference.app 1 two_users milk
                {[ "title" := JStr "Milk"; "completed" := JStr "yes" ]} Hnd) as (_ & Hc & _);
      [left | reflexivity|].
    apply Hc; [vm_compute; discriminate | exact I].
Defined.



Lemma listing_in_order_witness :
  exists items total,
    fst (run (get_tasks 1 no_args) two_users) = listing items 1 10 total
    /\ Sorted (fun a b => Task.created_at b <= Task.created_at a) items.
Proof.
  destruct (listing_in_order 1 no_args two_users
              (snd (run (get_tasks 1 no_args) two_users))
              (fst (run (get_tasks 1 no_args) two_users)))
    as (items & total & Hr & _ & Hs).
  - reflexivity.
  - reflexivity.
  - exists items, total. split; [exact Hr|]. apply Hs; reflexivity.
Defined.

Lemma sort_and_order_fallbacks_witness :
  run (get_tasks 1 (with_sort (Some "owner_id") no_args)) two_users
  = run (get_tasks 1 no_args) two_users
  /\ run (get_tasks 1 (with_order (Some "Descending") no_args)) two_users
     = run (get_tasks 1 (with_order (Some "asc") no_args)) two_users
  /\ run (get_tasks 1 (with_order (Some "DESC") no_args)) two_users
     = run (get_tasks 1 no_args) two_users.
Proof.
  destruct (sort_and_order_fallbacks 1 no_args two_users) as (Hs & _ & Ha & Hd).
  split; [apply (Hs "owner_id"); discriminate|].
  split; [apply (Ha "Descending"); discriminate|].
  apply (Hd "DESC"). reflexivity.
Defined.


Lemma task_ids_stay_unique_witness :
  NoDup (Task.id <$> tasks (snd (run (add_new_task Reference.app 2
                                        {[ "title" := JStr "Iron" ]}) two_users)))
  /\ NoDup (Task.id <$> tasks (snd (run (delete_task 1 2) two_users))).
Proof.
  destruct (task_ids_stay_unique Reference.app 2 2 {[ "title" := JStr "Iron" ]}
              no_args two_users) as (Ha & _ & _ & _).
  { apply (bool_decide_unpack _). vm_compute. exact I. }
  destruct (task_ids_stay_unique Reference.app 1 2 ∅ no_args two_users) as (_ & _ & Hd & _).
  { apply (bool_decide_unpack _). vm_compute. exact I. }
  split; assumption.
Defined.
